(** * aisum: the summarisation service of [app.py]

    A shallow embedding of the text pipeline of [app.py] (normalisation,
    the summarisation engine with its extractive fallback, the regex entity
    extractor and the [/summarize] handler) together with the properties
    the specification states about it.

    Conventions.
    - A Python [str] is a [string]; a character is read as a code point
      below 256.
    - A Python [float] is a binary64 primitive float; [int / int],
      [float(int)], [int(float)] and [round(x, 1)] are the correctly
      rounded operations of the language.
    - The collaborators the module only calls (the transformers pipeline,
      spaCy, BeautifulSoup's text extraction, [re.findall], the clock) are
      variables of the sections below. *)

From Stdlib Require Import String Ascii List ZArith Lia Bool Arith.
From Stdlib Require Import Permutation Sorted.
From Stdlib Require Import Floats.
Import ListNotations.

Local Open Scope string_scope.
Local Open Scope list_scope.

(** ** Python string primitives *)

Module PyStr.

(** [str.isspace] on one character, for code points below 256:
    TAB..CR, FS..US, SPACE, NEL and NBSP.  The same class is what [\s]
    matches in a [str] pattern and what [str.split()] and [str.strip()]
    separate on. *)
Definition isspace (c : ascii) : bool :=
  let n := nat_of_ascii c in
  (((9 <=? n) && (n <=? 13)) || ((28 <=? n) && (n <=? 32))
   || (n =? 133) || (n =? 160))%nat.

Definition is_empty (s : string) : bool :=
  match s with EmptyString => true | String _ _ => false end.

(** A pending word is flushed in front of the words found so far. *)
Definition cons_word (w : string) (ws : list string) : list string :=
  if is_empty w then ws else w :: ws.

(** [tokens s] is the word that starts at the head of [s] (empty when [s]
    starts with white space) and the words after it. *)
Fixpoint tokens (s : string) : string * list string :=
  match s with
  | EmptyString => (EmptyString, [])
  | String c s' =>
      let (w, ws) := tokens s' in
      if isspace c then (EmptyString, cons_word w ws) else (String c w, ws)
  end.

(** [s.split()]: the maximal runs of characters that are not white space. *)
Definition split (s : string) : list string :=
  let (w, ws) := tokens s in cons_word w ws.

(** [len(s.split())] *)
Definition word_count (s : string) : nat := List.length (split s).

(** [sep.join(l)] *)
Definition join (sep : string) (l : list string) : string :=
  String.concat sep l.

(** [re.sub(r'\s+', ' ', s)]: every maximal run of white space becomes one
    space.  [in_run] tells that the character before was white space. *)
Fixpoint collapse_from (in_run : bool) (s : string) : string :=
  match s with
  | EmptyString => EmptyString
  | String c s' =>
      if isspace c
      then if in_run then collapse_from true s'
           else String " " (collapse_from true s')
      else String c (collapse_from false s')
  end.

Definition collapse_ws (s : string) : string := collapse_from false s.

Fixpoint lstrip (s : string) : string :=
  match s with
  | EmptyString => EmptyString
  | String c s' => if isspace c then lstrip s' else s
  end.

Fixpoint rstrip (s : string) : string :=
  match s with
  | EmptyString => EmptyString
  | String c s' =>
      let r := rstrip s' in
      if isspace c && is_empty r then EmptyString else String c r
  end.

(** [s.strip()] *)
Definition strip (s : string) : string := rstrip (lstrip s).

(** [s.split(sep)] for a non-empty [sep]: cut at the non-overlapping
    occurrences of [sep], found left to right.  [skip] counts the characters
    of an occurrence still to be passed over.  The result is never empty: its
    head is the piece being read. *)
Fixpoint split_sep (sep : string) (skip : nat) (s : string) : list string :=
  match s with
  | EmptyString => [EmptyString]
  | String c s' =>
      match skip with
      | S k => split_sep sep k s'
      | O =>
          if String.prefix sep s
          then EmptyString :: split_sep sep (String.length sep - 1) s'
          else match split_sep sep 0 s' with
               | p :: ps => String c p :: ps
               | [] => [String c EmptyString]
               end
      end
  end.

Definition split_on (sep s : string) : list string := split_sep sep 0 s.

(** [s.endswith(c)] for a one-character suffix. *)
Fixpoint endswith_char (c : ascii) (s : string) : bool :=
  match s with
  | EmptyString => false
  | String a EmptyString => Ascii.eqb a c
  | String _ s' => endswith_char c s'
  end.

(** [str.lower] on one character: A..Z and the upper-case letters of
    Latin-1 (C0..DE but D7) move up by 32. *)
Definition lower_char (c : ascii) : ascii :=
  let n := nat_of_ascii c in
  if (((65 <=? n) && (n <=? 90))
      || ((192 <=? n) && (n <=? 222) && negb (n =? 215)))%nat
  then ascii_of_nat (n + 32) else c.

Fixpoint lower (s : string) : string :=
  match s with
  | EmptyString => EmptyString
  | String c s' => String (lower_char c) (lower s')
  end.

(** [l[i:j]] for [0 <= i <= j]. *)
Definition slice {A} (i j : nat) (l : list A) : list A :=
  firstn (j - i) (skipn i l).

(** [range(0, stop, step)] for a positive [step]. *)
Definition range_step (stop step : nat) : list nat :=
  map (fun k => k * step) (seq 0 ((stop + step - 1) / step)).

Fixpoint has_nonspace (s : string) : bool :=
  match s with
  | EmptyString => false
  | String c s' => negb (isspace c) || has_nonspace s'
  end.

(** A word: not empty, no white space in it. *)
Fixpoint no_space (s : string) : bool :=
  match s with
  | EmptyString => true
  | String c s' => negb (isspace c) && no_space s'
  end.

Definition is_word (w : string) : bool := negb (is_empty w) && no_space w.

End PyStr.

Import PyStr.

(** ** Python numbers *)

Module PyNum.

Local Open Scope Z_scope.

(** [float(n)] for an [int]: the nearest binary64 value.  (Beyond the range
    of the format Python raises; no text has that many words.) *)
Definition float_of_int (n : Z) : float :=
  SF2Prim (binary_normalize prec emax n 0 false).

Definition exact_int (n : Z) : spec_float :=
  match n with
  | Z0 => S754_zero false
  | Zpos p => S754_finite false p 0
  | Zneg p => S754_finite true p 0
  end.

(** [a / b] on two [int]s: the exact quotient, rounded once.  Python raises
    on [b = 0]; every division of the module has a positive divisor. *)
Definition int_truediv (a b : Z) : float :=
  SF2Prim (SFdiv prec emax (exact_int a) (exact_int b)).

(** [int(x)]: truncation toward zero ([0] stands for the values on which
    Python raises, infinities and NaN). *)
Definition int_of_float (x : float) : Z :=
  match Prim2SF x with
  | S754_finite s m e =>
      let v := if 0 <=? e then Z.shiftl (Zpos m) e
               else Z.shiftr (Zpos m) (- e) in
      if s then - v else v
  | _ => 0
  end.

(** The integer nearest to [num / den], ties to even ([0 <= num], [0 < den]). *)
Definition round_half_even (num den : Z) : Z :=
  let q := num / den in
  let r := num mod den in
  match 2 * r ?= den with
  | Lt => q
  | Gt => q + 1
  | Eq => if Z.even q then q else q + 1
  end.

(** [round(x, 1)]: the exact value of [x] is rounded to one decimal, ties to
    even, and the decimal is converted back to the nearest float. *)
Definition round1 (x : float) : float :=
  match Prim2SF x with
  | S754_finite s m e =>
      if 0 <=? e then x
      else
        let q := round_half_even (10 * Zpos m) (2 ^ (- e)) in
        let r := SF2Prim (SFdiv prec emax (exact_int q) (exact_int 10)) in
        if s then (- r)%float else r
  | _ => x
  end.

End PyNum.

Import PyNum.

(** ** The engine's effects *)

(** A call either returns or raises an exception with a message. *)
Inductive result (A : Type) : Type :=
| Ok (a : A)
| Raise (reason : string).

Arguments Ok {A} a.
Arguments Raise {A} reason.

(** One call of the transformers pipeline: [summarizer(text,
    max_length=..., min_length=..., do_sample=False)]. *)
Record call : Type := mk_call {
  call_text : string;
  call_max_length : Z;
  call_min_length : Z
}.

(** A computation that may raise and that records the pipeline calls it
    makes, in order. *)
Definition M (A : Type) : Type := list call -> result A * list call.

Definition ret {A} (a : A) : M A := fun tr => (Ok a, tr).

Definition bind {A B} (m : M A) (f : A -> M B) : M B :=
  fun tr =>
    match m tr with
    | (Ok a, tr') => f a tr'
    | (Raise e, tr') => (Raise e, tr')
    end.

(** [try: m except Exception as e: h e] *)
Definition try_except {A} (m : M A) (h : string -> M A) : M A :=
  fun tr =>
    match m tr with
    | (Ok a, tr') => (Ok a, tr')
    | (Raise e, tr') => h e tr'
    end.

Notation "x <- m ;; k" := (bind m (fun x => k))
  (at level 61, m at next level, right associativity).

(** Run a computation from an empty record of calls. *)
Definition run {A} (m : M A) : result A * list call := m [].

(** ** Dictionaries of the fallback summariser *)

Definition dict : Type := list (string * Z).

Fixpoint dict_get (d : dict) (k : string) (default : Z) : Z :=
  match d with
  | [] => default
  | (k', v) :: d' => if String.eqb k' k then v else dict_get d' k default
  end.

Fixpoint dict_mem (d : dict) (k : string) : bool :=
  match d with
  | [] => false
  | (k', _) :: d' => String.eqb k' k || dict_mem d' k
  end.

Fixpoint dict_set (d : dict) (k : string) (v : Z) : dict :=
  match d with
  | [] => [(k, v)]
  | (k', v') :: d' =>
      if String.eqb k' k then (k, v) :: d' else (k', v') :: dict_set d' k v
  end.

(** ** Sorting as the fallback summariser uses it *)

(** [sorted(l, key=key, reverse=True)]: descending by key, elements of equal
    key in their original order. *)
Fixpoint insert_desc (key : nat -> float) (x : nat) (l : list nat) : list nat :=
  match l with
  | [] => [x]
  | y :: l' =>
      if PrimFloat.ltb (key x) (key y) then y :: insert_desc key x l'
      else x :: l
  end.

Definition sorted_reverse (key : nat -> float) (l : list nat) : list nat :=
  fold_right (insert_desc key) [] l.

(** [l.sort()] on a list of [int]s. *)
Fixpoint insert_asc (x : nat) (l : list nat) : list nat :=
  match l with
  | [] => [x]
  | y :: l' => if (x <=? y)%nat then x :: l else y :: insert_asc x l'
  end.

Definition sort (l : list nat) : list nat := fold_right insert_asc [] l.

(** ** The module [app.py] *)

#[local] Set Warnings "-inexact-float".

(** An entity is the pair [(text, label)]. *)
Definition entity : Type := (string * string)%type.

(** One record of the history file. *)
Record history_entry : Type := mk_entry {
  entry_id : nat;
  entry_timestamp : string;
  entry_original_word_count : nat;
  entry_original_text : string;
  entry_summary : string;
  entry_entities : list entity;
  entry_summary_word_count : nat
}.

(** The JSON object posted to [/summarize]; a key that is absent is [None]. *)
Record request : Type := mk_request {
  req_text : option string;
  req_max_words : option Z
}.

(** [data.get('text', '')] *)
Definition request_text (data : request) : string :=
  match req_text data with Some t => t | None => "" end.

(** [int(data.get('max_words', 150))] *)
Definition request_max_words (data : request) : Z :=
  match req_max_words data with Some n => n | None => 150%Z end.

(** The body of a successful answer. *)
Record success_body : Type := mk_body {
  summary : string;
  entities : list entity;
  original_word_count : nat;
  summary_word_count : nat;
  compression_ratio : float;
  timestamp : string
}.

(** [{'success': True, ...}] or [{'success': False, 'error': ...}]. *)
Inductive response : Type :=
| Success (body : success_body)
| Failure (error : string).

Definition advisory : string :=
  "Text too short for meaningful summarization. Please provide at least 50 words.".

Definition date_pattern : string :=
  "\b\d{1,2}[/-]\d{1,2}[/-]\d{2,4}\b|\b\d{4}[/-]\d{1,2}[/-]\d{1,2}\b".

Definition money_pattern : string :=
  "\$\d+(?:,\d{3})*(?:\.\d{2})?|\b\d+(?:,\d{3})*(?:\.\d{2})?\s*(?:dollars?|USD|million|billion)\b".

Definition name_pattern : string :=
  "\b[A-Z][a-z]+(?:\s+[A-Z][a-z]+)*\b".

Section Model.

(** Whether the transformers pipeline was loaded, and the pipeline:
    [summarizer(text, max_length, min_length)[0]['summary_text']]. *)
Variable TRANSFORMER_AVAILABLE : bool.
Variable summarizer : string -> Z -> Z -> result string.

(** Whether spaCy and its model were loaded, and the entities
    [(ent.text, ent.label_)] of [nlp(text).ents]. *)
Variable SPACY_AVAILABLE : bool.
Variable nlp_ents : string -> list entity.

(** [BeautifulSoup(raw_html, "html.parser").get_text()] *)
Variable get_text : string -> string.

(** [re.findall(pattern, text)], the flag telling [re.IGNORECASE].  None of
    the three patterns has a capturing group: the matches are strings. *)
Variable re_findall : string -> bool -> string -> list string.

(** [datetime.now().strftime("%Y-%m-%d %H:%M:%S")] *)
Variable now : string.

Definition save_to_history (history : list history_entry)
    (original_text summary : string) (entities : list entity)
    (word_count : nat) (timestamp : string) : list history_entry :=
  let entry :=
    mk_entry (List.length history + 1) timestamp word_count
      (if (200 <? String.length original_text)%nat
       then (String.substring 0 200 original_text ++ "...")%string
       else original_text)
      summary entities (PyStr.word_count summary) in
  let history := (history ++ [entry])%list in
  if (50 <? List.length history)%nat
  then skipn (List.length history - 50) history
  else history.

Definition clean_text (raw_html : string) : string :=
  let text := get_text raw_html in
  strip (collapse_ws text).

(** The three loops of the regex fallback, each over a slice of the
    matches. *)
Definition fallback_dates (text : string) : list entity :=
  map (fun date => (date, "DATE")) (firstn 5 (re_findall date_pattern false text)).

Definition fallback_money (text : string) : list entity :=
  map (fun amount => (amount, "MONEY"))
      (firstn 5 (re_findall money_pattern true text)).

Definition fallback_names (text : string) : list entity :=
  map (fun name => (name, "PERSON/ORG"))
      (filter (fun name => (3 <? String.length name)%nat)
              (firstn 10 (re_findall name_pattern false text))).

(** The loop over [doc.ents]: [seen] holds the texts already taken. *)
Fixpoint dedup_ents (ents : list entity) (seen : list string) : list entity :=
  match ents with
  | [] => []
  | (ent_text, ent_label) :: rest =>
      if negb (existsb (String.eqb ent_text) seen)
         && (1 <? String.length (strip ent_text))%nat
      then (ent_text, ent_label) :: dedup_ents rest (ent_text :: seen)
      else dedup_ents rest seen
  end.

Definition extract_entities (text : string) : list entity :=
  if negb SPACY_AVAILABLE then
    let entities := fallback_dates text in
    let entities := (entities ++ fallback_money text)%list in
    let entities := (entities ++ fallback_names text)%list in
    firstn 20 entities
  else
    firstn 20 (dedup_ents (nlp_ents text) []).

(** The [else] branch of [generate_summary]: extractive summarisation. *)

(** The loop that fills [word_freq]. *)
Definition count_words (words : list string) : dict :=
  fold_left
    (fun word_freq word =>
       if (3 <? String.length word)%nat
       then dict_set word_freq word (dict_get word_freq word 0 + 1)
       else word_freq)
    words [].

(** The body of the loop over [enumerate(sentences)]: [scores[i]]. *)
Definition sentence_score (n_sentences : nat) (word_freq : dict)
    (i : nat) (sentence : string) : float :=
  let sentence_words := split (lower sentence) in
  let score := 0%float in
  let score :=
    (score + int_truediv (Z.of_nat (n_sentences - i)) (Z.of_nat n_sentences)
             * 0.3)%float in
  let score :=
    fold_left
      (fun score word =>
         if dict_mem word_freq word
         then (score + float_of_int (dict_get word_freq word 0))%float
         else score)
      sentence_words score in
  let length := List.length sentence_words in
  if ((10 <=? length) && (length <=? 30))%nat then (score + 0.2)%float
  else score.

(** [scores], as the list of its values for the keys [0 .. N-1]. *)
Definition sentence_scores (text : string) : list float :=
  let sentences := split_on ". " text in
  let word_freq := count_words (split (lower text)) in
  map (fun i => sentence_score (List.length sentences) word_freq i
                  (nth i sentences ""))
      (seq 0 (List.length sentences)).

(** [max(2, min(5, int(len(sentences) * 0.3)))] *)
Definition target_sentences (n_sentences : nat) : nat :=
  Z.to_nat
    (Z.max 2 (Z.min 5 (int_of_float (float_of_int (Z.of_nat n_sentences) * 0.3)))).

(** [top_sentences] after [top_sentences.sort()]. *)
Definition top_sentences (text : string) : list nat :=
  let sentences := split_on ". " text in
  let scores := sentence_scores text in
  let top :=
    firstn (target_sentences (List.length sentences))
           (sorted_reverse (fun x => nth x scores 0%float)
                           (seq 0 (List.length scores))) in
  sort top.

Definition extractive_summary (text : string) : string :=
  let sentences := split_on ". " text in
  if (List.length sentences <=? 3)%nat then text
  else
    let summary :=
      join ". " (map (fun i => nth i sentences "") (top_sentences text)) in
    if negb (endswith_char "." summary) then (summary ++ ".")%string else summary.

(** The transformers branch. *)

Definition call_summarizer (text : string) (max_length min_length : Z)
  : M string :=
  fun tr => (summarizer text max_length min_length,
             (tr ++ [mk_call text max_length min_length])%list).

(** [min(100, int(len(chunk.split()) * 0.3))] *)
Definition chunk_max_length (chunk : string) : Z :=
  Z.min 100 (int_of_float (float_of_int (Z.of_nat (word_count chunk)) * 0.3)).

(** The loop over [chunks]; a chunk whose call raises is passed over. *)
Fixpoint summarize_chunks (chunks : list string) (summaries : list string)
  : M (list string) :=
  match chunks with
  | [] => ret summaries
  | chunk :: rest =>
      summaries <-
        try_except
          (chunk_summary <- call_summarizer chunk (chunk_max_length chunk) 20 ;;
           ret (summaries ++ [chunk_summary])%list)
          (fun _ => ret summaries) ;;
      summarize_chunks rest summaries
  end.

(** [[' '.join(words[i:i+chunk_size]) for i in range(0, len(words), chunk_size)]] *)
Definition make_chunks (words : list string) (chunk_size : nat) : list string :=
  map (fun i => join " " (slice i (i + chunk_size) words))
      (range_step (List.length words) chunk_size).

(** [min(max_words, max(min_words, int(input_length * 0.4)))] *)
Definition regular_max_len (input_length : nat) (max_words min_words : Z) : Z :=
  Z.min max_words
    (Z.max min_words
       (int_of_float (float_of_int (Z.of_nat input_length) * 0.4))).

Definition generate_summary (text : string) (max_words min_words : Z)
  : M string :=
  let input_length := word_count text in
  if (input_length <? 50)%nat then ret advisory
  else if TRANSFORMER_AVAILABLE then
    if (1000 <? input_length)%nat then
      let words := split text in
      let chunk_size := 800%nat in
      let chunks := make_chunks words chunk_size in
      summaries <- summarize_chunks chunks [] ;;
      let combined := join " " summaries in
      if (max_words <? Z.of_nat (word_count combined))%Z
      then call_summarizer combined max_words min_words
      else ret combined
    else
      try_except
        (let max_len := regular_max_len input_length max_words min_words in
         call_summarizer text max_len min_words)
        (fun e => ret ("Error generating summary: " ++ e)%string)
  else ret (extractive_summary text).

(** The handler of [/summarize].  [data] is the JSON body, [None] when it is
    missing or empty; [history] is the content of the history file, and the
    new content is returned with the answer.  Failures of the file system
    and of the collaborators other than the pipeline are outside the model. *)
Definition summarize (history : list history_entry) (data : option request)
  : response * list history_entry :=
  match data with
  | None => (Failure "No data provided", history)
  | Some data =>
      let raw_text := request_text data in
      let max_words := request_max_words data in
      if is_empty (strip raw_text)
      then (Failure "Please provide text to summarize", history)
      else
        let cleaned := clean_text raw_text in
        let word_count := word_count cleaned in
        if (word_count <? 20)%nat
        then (Failure "Text is too short. Please provide at least 20 words.",
              history)
        else
          match fst (run (generate_summary cleaned max_words 30)) with
          | Raise e => (Failure ("An error occurred: " ++ e)%string, history)
          | Ok summary =>
              let entities := extract_entities cleaned in
              let summary_word_count := PyStr.word_count summary in
              let compression_ratio :=
                round1 ((1 - int_truediv (Z.of_nat summary_word_count)
                                         (Z.of_nat word_count)) * 100)%float in
              let timestamp := now in
              (Success (mk_body summary entities word_count summary_word_count
                                compression_ratio timestamp),
               save_to_history history cleaned summary entities word_count
                               timestamp)
          end
  end.

End Model.

(** ** Predicates and views used in the statements *)

(** White space is tidy when it is made of single spaces only; [in_run]
    tells that the character before was white space. *)
Fixpoint tidy (in_run : bool) (s : string) : bool :=
  match s with
  | EmptyString => true
  | String c s' =>
      if isspace c then Ascii.eqb c " " && negb in_run && tidy true s'
      else tidy false s'
  end.

(** The first character, if any, is not white space. *)
Definition starts_clean (s : string) : bool :=
  match s with
  | EmptyString => true
  | String c _ => negb (isspace c)
  end.

(** The word lists of the chunks: [words[i:i+chunk_size]] for the [i] of the
    range. *)
Definition chunk_words (words : list string) (chunk_size : nat)
  : list (list string) :=
  map (fun i => slice i (i + chunk_size) words)
      (range_step (List.length words) chunk_size).

(** The number of entities with a given label. *)
Definition count_label (label : string) (l : list entity) : nat :=
  List.length (filter (fun e => String.eqb (snd e) label) l).

(** The summaries the chunk loop collects: those of the chunks whose call
    returned, in the order of the chunks. *)
Definition chunk_summaries (summarizer : string -> Z -> Z -> result string)
    (chunks : list string) : list string :=
  flat_map
    (fun chunk =>
       match summarizer chunk (chunk_max_length chunk) 20%Z with
       | Ok chunk_summary => [chunk_summary]
       | Raise _ => []
       end)
    chunks.

(** The calls the chunk loop makes. *)
Definition chunk_calls (chunks : list string) : list call :=
  map (fun chunk => mk_call chunk (chunk_max_length chunk) 20%Z) chunks.

(** ** The specification's formulas

    These follow the words of the specification, to be compared with the
    definitions above. *)

(** [round(n * k / 10)], the nearest integer. *)
Definition spec_round_tenths (n : nat) (k : Z) : Z :=
  round_half_even (Z.of_nat n * k) 10.

(** "target = max(2, min(5, round(N * 0.3)))" *)
Definition spec_target_sentences (n : nat) : nat :=
  Z.to_nat (Z.max 2 (Z.min 5 (spec_round_tenths n 3))).

(** "target length = min(maxWords, max(minWords, round(wordCount * 0.4)))" *)
Definition spec_regular_max_len (input_length : nat) (max_words min_words : Z) : Z :=
  Z.min max_words (Z.max min_words (spec_round_tenths input_length 4)).

(** "per-chunk target length = min(100, round(chunk word count * 0.3))" *)
Definition spec_chunk_max_length (chunk : string) : Z :=
  Z.min 100 (spec_round_tenths (word_count chunk) 3).

(** The chunking policy "applied uniformly to either strategy": split into
    chunks of 800 words, summarise each with the strategy, skip the chunks
    that fail, join with single spaces, and summarise the result once more
    when it is longer than [max_words]. *)
Definition spec_long_summary (strategy : string -> Z -> Z -> result string)
    (text : string) (max_words min_words : Z) : result string :=
  let chunks := map (join " ") (chunk_words (split text) 800) in
  let summaries :=
    flat_map
      (fun chunk =>
         match strategy chunk (spec_chunk_max_length chunk) 20%Z with
         | Ok s => [s]
         | Raise _ => []
         end)
      chunks in
  let combined := join " " summaries in
  if (max_words <? Z.of_nat (word_count combined))%Z
  then strategy combined max_words min_words
  else Ok combined.

(** The fallback summariser as a strategy: it ignores the bounds. *)
Definition fallback_strategy (text : string) (_ _ : Z) : result string :=
  Ok (extractive_summary text).

(** [reason in s] *)
Definition embeds (reason s : string) : bool :=
  match String.index 0 reason s with Some _ => true | None => false end.


(** ** Collaborators and inputs for the examples *)

(** A pipeline whose every call raises. *)
Definition failing_summarizer (_ : string) (_ _ : Z) : result string :=
  Raise "model failure".

(** A pipeline that returns its input. *)
Definition echo_summarizer (text : string) (_ _ : Z) : result string :=
  Ok text.

(** A pipeline that returns its input and raises on inputs of more than 800
    words. *)
Definition bounded_summarizer (text : string) (_ _ : Z) : result string :=
  if (800 <? word_count text)%nat then Raise "input too long" else Ok text.

Definition no_entities (_ : string) : list entity := [].

Definition no_matches (_ : string) (_ : bool) (_ : string) : list string := [].

(** A matcher with fixed answers: seven dates, two amounts and twelve
    capitalised phrases, three of them of 3 characters or fewer. *)
Definition canned_matches (pattern : string) (_ : bool) (_ : string)
  : list string :=
  if String.eqb pattern date_pattern then
    ["1/2/2020"; "3/4/2021"; "2022-05-06"; "7/8/23"; "9-10-2024"; "11/12/2025";
     "2026/1/2"]
  else if String.eqb pattern money_pattern then ["$5"; "3 million"]
  else
    ["Ann"; "Bob Stone"; "Acme"; "Ltd"; "Paris"; "Zed"; "Carol"; "Delta Corp";
     "Erin"; "Fargo"; "Gina"; "Hugo"].

(** *** A matcher for the patterns of the module

    Backtracking matching with the priorities of Python's [re]: the left
    alternative first, repetitions greedy.  It covers what the three
    patterns of the module use, on code points below 256. *)

Module Re.

Inductive regex : Type :=
| Eps
| Class (p : ascii -> bool)
| Cat (r1 r2 : regex)
| Alt (r1 r2 : regex)
| Rep (lo : nat) (hi : option nat) (r : regex)
| Boundary.

Definition in_range (lo hi : nat) (c : ascii) : bool :=
  let n := nat_of_ascii c in ((lo <=? n) && (n <=? hi))%nat.

(** [\d] *)
Definition is_digit (c : ascii) : bool := in_range 48 57 c.

(** [\w]: [str.isalnum] or the underscore. *)
Definition is_word_char (c : ascii) : bool :=
  let n := nat_of_ascii c in
  (is_digit c || in_range 65 90 c || in_range 97 122 c || (n =? 95)
   || (n =? 170) || (n =? 178) || (n =? 179) || (n =? 181) || (n =? 185)
   || (n =? 186) || in_range 188 190 c || in_range 192 214 c
   || in_range 216 246 c || in_range 248 255 c)%nat.

Definition upper_char (c : ascii) : ascii :=
  let n := nat_of_ascii c in
  if (in_range 97 122 c
      || ((224 <=? n) && (n <=? 254) && negb (n =? 247)))%nat
  then ascii_of_nat (n - 32) else c.

(** A character is in a class, under [re.IGNORECASE] when one of its cases
    is. *)
Definition class_match (ignorecase : bool) (p : ascii -> bool) (c : ascii) : bool :=
  p c || (ignorecase && (p (lower_char c) || p (upper_char c))).

Definition word_before (prev : option ascii) : bool :=
  match prev with Some c => is_word_char c | None => false end.

Definition word_after (s : string) : bool :=
  match s with String c _ => is_word_char c | EmptyString => false end.

(** [exec r prev s k]: match [r] at the head of [s], [prev] being the
    character before, and go on with [k] on what is left; [None] when every
    way of matching fails. *)
Fixpoint exec (ignorecase : bool) (r : regex) (prev : option ascii) (s : string)
    (k : option ascii -> string -> option string) {struct r} : option string :=
  match r with
  | Eps => k prev s
  | Class p =>
      match s with
      | String c s' => if class_match ignorecase p c then k (Some c) s' else None
      | EmptyString => None
      end
  | Cat r1 r2 =>
      exec ignorecase r1 prev s (fun prev' s' => exec ignorecase r2 prev' s' k)
  | Alt r1 r2 =>
      match exec ignorecase r1 prev s k with
      | Some rest => Some rest
      | None => exec ignorecase r2 prev s k
      end
  | Boundary => if xorb (word_before prev) (word_after s) then k prev s else None
  | Rep lo hi r' =>
      (fix loop (fuel count : nat) (prev : option ascii) (s : string)
           {struct fuel} : option string :=
         let stop := if (lo <=? count)%nat then k prev s else None in
         match fuel with
         | O => stop
         | S fuel' =>
             if match hi with Some h => (count <? h)%nat | None => true end
             then
               match exec ignorecase r' prev s
                       (fun prev' s' =>
                          if (String.length s' <? String.length s)%nat
                          then loop fuel' (S count) prev' s' else None) with
               | Some rest => Some rest
               | None => stop
               end
             else stop
         end) (String.length s) 0%nat prev s
  end.

(** The non-overlapping matches, found left to right.  The patterns of the
    module match no empty string. *)
Fixpoint scan (fuel : nat) (ignorecase : bool) (r : regex)
    (prev : option ascii) (s : string) : list string :=
  match fuel with
  | O => []
  | S fuel' =>
      let next :=
        match s with
        | String c s' => scan fuel' ignorecase r (Some c) s'
        | EmptyString => []
        end in
      match exec ignorecase r prev s (fun _ rest => Some rest) with
      | Some rest =>
          match (String.length s - String.length rest)%nat with
          | O => next
          | S n =>
              String.substring 0 (S n) s
              :: scan fuel' ignorecase r (String.get n s) rest
          end
      | None => next
      end
  end.

Definition findall (r : regex) (ignorecase : bool) (s : string) : list string :=
  scan (S (String.length s)) ignorecase r None s.

Definition cat (rs : list regex) : regex := fold_right Cat Eps rs.
Definition chr (c : ascii) : regex := Class (Ascii.eqb c).
Fixpoint lit (s : string) : regex :=
  match s with
  | EmptyString => Eps
  | String c s' => Cat (chr c) (lit s')
  end.
Definition star (r : regex) : regex := Rep 0 None r.
Definition plus (r : regex) : regex := Rep 1 None r.
Definition opt (r : regex) : regex := Rep 0 (Some 1%nat) r.
Definition digit : regex := Class is_digit.
Definition space : regex := Class isspace.
Definition upper : regex := Class (in_range 65 90).
Definition lower : regex := Class (in_range 97 122).
(** [[/-]] *)
Definition date_sep : regex := Alt (chr "/") (chr "-").

(** [\b\d{1,2}[/-]\d{1,2}[/-]\d{2,4}\b|\b\d{4}[/-]\d{1,2}[/-]\d{1,2}\b] *)
Definition date_re : regex :=
  Alt (cat [Boundary; Rep 1 (Some 2%nat) digit; date_sep;
            Rep 1 (Some 2%nat) digit; date_sep; Rep 2 (Some 4%nat) digit;
            Boundary])
      (cat [Boundary; Rep 4 (Some 4%nat) digit; date_sep;
            Rep 1 (Some 2%nat) digit; date_sep; Rep 1 (Some 2%nat) digit;
            Boundary]).

(** [\d+(?:,\d{3})*(?:\.\d{2})?] *)
Definition amount : regex :=
  cat [plus digit; star (cat [chr ","; Rep 3 (Some 3%nat) digit]);
       opt (cat [chr "."; Rep 2 (Some 2%nat) digit])].

(** [\$\d+(?:,\d{3})*(?:\.\d{2})?|\b\d+(?:,\d{3})*(?:\.\d{2})?\s*(?:dollars?|USD|million|billion)\b] *)
Definition money_re : regex :=
  Alt (cat [chr "$"; amount])
      (cat [Boundary; amount; star space;
            Alt (cat [lit "dollar"; opt (chr "s")])
                (Alt (lit "USD") (Alt (lit "million") (lit "billion")));
            Boundary]).

(** [\b[A-Z][a-z]+(?:\s+[A-Z][a-z]+)*\b] *)
Definition name_re : regex :=
  cat [Boundary; upper; plus lower;
       star (cat [plus space; upper; plus lower]); Boundary].

End Re.

(** [re.findall] on the three patterns of the module (and no match for any
    other pattern). *)
Definition py_findall (pattern : string) (ignorecase : bool) (text : string)
  : list string :=
  if String.eqb pattern date_pattern then Re.findall Re.date_re ignorecase text
  else if String.eqb pattern money_pattern then Re.findall Re.money_re ignorecase text
  else if String.eqb pattern name_pattern then Re.findall Re.name_re ignorecase text
  else [].

(** The text extraction of [html.parser] on the fragment of HTML made of
    text, tags and the references [&lt;], [&gt;] and [&amp;]: tags are
    dropped, references are decoded.  [skip] counts the characters of a
    reference still to be passed over. *)
Fixpoint html_text (in_tag : bool) (skip : nat) (s : string) : string :=
  match s with
  | EmptyString => EmptyString
  | String c s' =>
      match skip with
      | S k => html_text in_tag k s'
      | O =>
          if in_tag then html_text (negb (Ascii.eqb c ">")) 0 s'
          else if Ascii.eqb c "<" then html_text true 0 s'
          else if String.prefix "&lt;" s then String "<" (html_text false 3 s')
          else if String.prefix "&gt;" s then String ">" (html_text false 3 s')
          else if String.prefix "&amp;" s then String "&" (html_text false 4 s')
          else String c (html_text false 0 s')
      end
  end.

Definition html_get_text (raw_html : string) : string := html_text false 0 raw_html.

(** [n] copies of the word [w], separated by single spaces. *)
Definition words_text (n : nat) (w : string) : string := join " " (repeat w n).

(** Nine one-word sentences. *)
Definition nine_sentences : string := "a. b. c. d. e. f. g. h. i".

(** Four sentences, the second ending in an ellipsis. *)
Definition ellipsis_text : string := "a. b... c. d".

(** Three one-word sentences followed by one sentence of 998 words: 1001
    words in all. *)
Definition long_text : string := ("a. b. c. " ++ words_text 998 "w")%string.

(** Sixty words in four sentences. *)
Definition sixty_words : string :=
  (words_text 14 "alpha" ++ ". " ++ words_text 15 "beta" ++ ". "
   ++ words_text 15 "gamma" ++ ". " ++ words_text 16 "delta")%string.

(** ** The history file, the history handlers and the upload handler *)

(** The content of [summary_history.json]; [None] when the file does not
    exist. *)
Definition history_file : Type := option (list history_entry).

Definition load_history (file : history_file) : list history_entry :=
  match file with
  | Some history => history
  | None => []
  end.

(** [l[-n:]] for a positive [n]. *)
Definition last_n {A} (n : nat) (l : list A) : list A :=
  skipn (List.length l - n) l.

(** The handler of [/history]: [history[-10:]]. *)
Definition get_history (file : history_file) : list history_entry :=
  last_n 10 (load_history file).

(** The handler of [/clear-history]: the file is removed when it exists. *)
Definition clear_history (file : history_file) : history_file :=
  match file with
  | Some _ => None
  | None => None
  end.

(** [save_to_history] on the file: the history is loaded, extended and
    written back. *)
Definition save_to_history_file (file : history_file)
    (original_text summary : string) (entities : list entity)
    (word_count : nat) (timestamp : string) : history_file :=
  Some (save_to_history (load_history file) original_text summary entities
          word_count timestamp).

(** [n] calls of [save_to_history], one per record to save. *)
Definition saved_record : Type :=
  (string * string * list entity * nat * string)%type.

Definition save_all (history : list history_entry) (records : list saved_record)
  : list history_entry :=
  fold_left
    (fun history '(original_text, summary, entities, word_count, timestamp) =>
       save_to_history history original_text summary entities word_count
                       timestamp)
    records history.

(** [s.endswith(suffix)] *)
Definition endswith (suffix s : string) : bool :=
  let n := String.length s in
  let m := String.length suffix in
  (m <=? n)%nat && String.eqb (String.substring (n - m) m s) suffix.

(** An uploaded file: its name and its bytes. *)
Record upload : Type := mk_upload {
  filename : string;
  file_bytes : string
}.

(** The answer of [/upload]. *)
Inductive upload_response : Type :=
| UploadSuccess (content : string) (word_count : nat)
| UploadFailure (error : string).

Definition newline : string := String (ascii_of_nat 10) EmptyString.

Section Upload.

(** Whether python-docx was imported. *)
Variable DOCX_AVAILABLE : bool.

(** [file.read().decode("utf-8")] *)
Variable decode_utf8 : string -> result string.

(** [[para.text for para in Document(file).paragraphs]] *)
Variable docx_paragraphs : string -> result (list string).

Definition read_file (file : upload) : string :=
  let attempt : result string :=
    if endswith ".txt" (filename file) then decode_utf8 (file_bytes file)
    else if endswith ".docx" (filename file) then
      if negb DOCX_AVAILABLE
      then Ok "Error: DOCX file reading not available. Please install python-docx or convert to TXT format."
      else
        match docx_paragraphs (file_bytes file) with
        | Ok paragraphs => Ok (join newline paragraphs)
        | Raise e => Raise e
        end
    else Ok "Error: Unsupported file format. Please use .txt or .docx files." in
  match attempt with
  | Ok content => content
  | Raise e => ("Error reading file: " ++ e)%string
  end.

(** The handler of [/upload]; [files] is [request.files.get('file')]. *)
Definition upload_file (files : option upload) : upload_response :=
  match files with
  | None => UploadFailure "No file uploaded"
  | Some file =>
      if String.eqb (filename file) "" then UploadFailure "No file selected"
      else
        let content := read_file file in
        if String.prefix "Error" content then UploadFailure content
        else UploadSuccess content (word_count content)
  end.

(** The ways [read_file] fails, each with its message. *)
Inductive read_error (file : upload) : string -> Prop :=
| unsupported_format :
    endswith ".txt" (filename file) = false ->
    endswith ".docx" (filename file) = false ->
    read_error file "Error: Unsupported file format. Please use .txt or .docx files."
| docx_unavailable :
    endswith ".txt" (filename file) = false ->
    endswith ".docx" (filename file) = true ->
    DOCX_AVAILABLE = false ->
    read_error file "Error: DOCX file reading not available. Please install python-docx or convert to TXT format."
| text_undecodable reason :
    endswith ".txt" (filename file) = true ->
    decode_utf8 (file_bytes file) = Raise reason ->
    read_error file ("Error reading file: " ++ reason)
| docx_unreadable reason :
    endswith ".txt" (filename file) = false ->
    endswith ".docx" (filename file) = true ->
    DOCX_AVAILABLE = true ->
    docx_paragraphs (file_bytes file) = Raise reason ->
    read_error file ("Error reading file: " ++ reason).

End Upload.

(** A decoder for the examples: the bytes are the text. *)
Definition latin1_decode (bytes : string) : result string := Ok bytes.

(** A decoder that always fails. *)
Definition failing_decode (_ : string) : result string :=
  Raise "'utf-8' codec can't decode byte".

Definition no_paragraphs (_ : string) : result (list string) := Ok [].

(** The record [save_to_history] builds. *)
Definition new_entry (history : list history_entry)
    (original_text summary : string) (entities : list entity)
    (word_count : nat) (timestamp : string) : history_entry :=
  mk_entry (List.length history + 1) timestamp word_count
    (if (200 <? String.length original_text)%nat
     then (String.substring 0 200 original_text ++ "...")%string
     else original_text)
    summary entities (PyStr.word_count summary).

(** Five records to save, for the examples. *)
Definition five_records : list saved_record :=
  map (fun s => ("text", s, [], 30%nat, "2024-01-01 00:00:00"))
      ["one"; "two"; "three"; "four"; "five"].

(** Fifty records, a full history file. *)
Definition full_history : list history_entry :=
  save_all [] (repeat ("text", "summary", [], 30%nat, "2024-01-01 00:00:00") 50).

(** The words after the first one, each after one space. *)
Fixpoint spaced (ws : list string) : string :=
  match ws with
  | [] => EmptyString
  | w :: ws' => (" " ++ w ++ spaced ws')%string
  end.

(** Uploaded files for the examples. *)
Definition pdf_upload : upload := mk_upload "report.pdf" "%PDF-1.7".

Definition log_upload : upload :=
  mk_upload "log.txt" "Error rates fell by half between 2023 and 2024.".

Definition notes_upload : upload :=
  mk_upload "notes.txt" "Three short words".

(** [l1] is [l2] with some elements left out, the order kept. *)
Inductive subseq {A : Type} : list A -> list A -> Prop :=
| subseq_nil l : subseq [] l
| subseq_take x l1 l2 : subseq l1 l2 -> subseq (x :: l1) (x :: l2)
| subseq_skip x l1 l2 : subseq l1 l2 -> subseq l1 (x :: l2).

(** Entities as a spaCy model could return them, with a repeated text and a
    text of one character. *)
Definition sample_ents (_ : string) : list entity :=
  [("Paris", "GPE"); ("x", "ORG"); ("Paris", "ORG"); ("IBM", "ORG")].

(** A number that is zero, positive or plus infinity: not NaN, not negative. *)
Definition sf_nonneg (x : spec_float) : Prop :=
  match x with
  | S754_nan => False
  | S754_zero _ => True
  | S754_infinity s => s = false
  | S754_finite s _ _ => s = false
  end.

Definition nonneg (x : float) : Prop := sf_nonneg (Prim2SF x).

(** How [a] stands before [b] in the ranking by [key]: the key of [b] is not
    higher, and it is strictly lower when [b] is the earlier of the two. *)
Definition ranked_before (key : nat -> float) (a b : nat) : Prop :=
  PrimFloat.ltb (key a) (key b) = false /\
  ((b < a)%nat -> PrimFloat.ltb (key b) (key a) = true).

(** * Properties *)

(** ** The primitives on examples *)

Example split_example :
  split "  two  words
 here " = ["two"; "words"; "here"].
Proof. reflexivity. Qed.

Example split_on_example :
  split_on ". " "One. Two.. Three. " = ["One"; "Two."; "Three"; ""].
Proof. reflexivity. Qed.

Example normalise_example :
  strip (collapse_ws "  a 	 b
c  ") = "a b c".
Proof. reflexivity. Qed.

Example round1_examples :
  round1 6.25 = 6.2%float /\ round1 2.675 = 2.7%float /\
  round1 ((1 - int_truediv 12 49) * 100) = 75.5%float.
Proof. repeat split; vm_compute; reflexivity. Qed.

Example truncation_examples :
  int_of_float (float_of_int 9 * 0.3) = 2%Z /\
  int_of_float (float_of_int 77 * 0.4) = 30%Z.
Proof. split; vm_compute; reflexivity. Qed.

(** The caps of the regex fallback at work: five dates of seven, both
    amounts, and the long names among the first ten candidates. *)
Example extract_entities_example :
  extract_entities false no_entities canned_matches "any text"
  = [("1/2/2020", "DATE"); ("3/4/2021", "DATE"); ("2022-05-06", "DATE");
     ("7/8/23", "DATE"); ("9-10-2024", "DATE");
     ("$5", "MONEY"); ("3 million", "MONEY");
     ("Bob Stone", "PERSON/ORG"); ("Acme", "PERSON/ORG");
     ("Paris", "PERSON/ORG"); ("Carol", "PERSON/ORG");
     ("Delta Corp", "PERSON/ORG"); ("Erin", "PERSON/ORG");
     ("Fargo", "PERSON/ORG")].
Proof. reflexivity. Qed.

(** The regex fallback on a sentence, with the matcher above. *)
Example extract_entities_regex_example :
  extract_entities false no_entities py_findall
    "On 12/05/2023 Alice Smith of Acme paid $1,200.50, then 3 million more by 2024-1-2."
  = [("12/05/2023", "DATE"); ("2024-1-2", "DATE");
     ("$1,200.50", "MONEY"); ("3 million", "MONEY");
     ("Alice Smith", "PERSON/ORG"); ("Acme", "PERSON/ORG")].
Proof. vm_compute. reflexivity. Qed.

(** The spaCy branch keeps the first occurrence of each text and drops the
    texts of one character or none. *)
Example extract_entities_spacy_example :
  extract_entities true
    (fun _ => [("Paris", "GPE"); ("x", "ORG"); ("Paris", "ORG"); ("IBM", "ORG")])
    no_matches "any text"
  = [("Paris", "GPE"); ("IBM", "ORG")].
Proof. reflexivity. Qed.

(** Sixty words in four sentences: the two sentences of highest score are
    the second and the fourth. *)
Example sixty_words_summary :
  top_sentences sixty_words = [1; 3]%nat /\
  extractive_summary sixty_words
  = (words_text 15 "beta" ++ ". " ++ words_text 16 "delta" ++ ".")%string.
Proof. split; vm_compute; reflexivity. Qed.

(** ** Words and white space *)

Lemma split_unfold (s : string) :
  split s = cons_word (fst (tokens s)) (snd (tokens s)).
Proof. unfold split. destruct (tokens s); reflexivity. Qed.

Lemma tokens_cons (c : ascii) (s : string) :
  tokens (String c s) =
  if isspace c then ("", split s) else (String c (fst (tokens s)), snd (tokens s)).
Proof.
  rewrite split_unfold. simpl. destruct (tokens s) as [w ws].
  destruct (isspace c); reflexivity.
Qed.

Lemma split_has_nonspace (s : string) :
  has_nonspace s = true -> split s <> [].
Proof.
  induction s as [|c s IH]; simpl; [discriminate|].
  intros H. rewrite split_unfold, tokens_cons.
  destruct (isspace c); simpl in *.
  - exact (IH H).
  - discriminate.
Qed.

Lemma word_count_has_nonspace (s : string) :
  has_nonspace s = true -> (1 <= word_count s)%nat.
Proof.
  intros H. apply split_has_nonspace in H. unfold word_count.
  destruct (split s); [congruence | simpl; lia].
Qed.

Lemma split_nonempty_has_nonspace (s : string) :
  split s <> [] -> has_nonspace s = true.
Proof.
  induction s as [|c s IH]; simpl.
  - intros H. now elim H.
  - rewrite split_unfold, tokens_cons.
    destruct (isspace c); simpl; auto.
Qed.

Lemma endswith_dot_has_nonspace (s : string) :
  endswith_char "." s = true -> has_nonspace s = true.
Proof.
  induction s as [|c s IH]; simpl; [discriminate|].
  destruct s as [|c' s'].
  - intros H. apply Ascii.eqb_eq in H. subst c. reflexivity.
  - intros H. rewrite (IH H). apply orb_true_r.
Qed.

Lemma endswith_char_app (c : ascii) (s : string) :
  endswith_char c (s ++ String c "") = true.
Proof.
  induction s as [|a s IH]; simpl.
  - apply Ascii.eqb_refl.
  - destruct (s ++ String c "")%string eqn:E.
    + destruct s; discriminate.
    + exact IH.
Qed.

(** Every string [s.split()] yields is a word. *)
Lemma tokens_words (s : string) :
  no_space (fst (tokens s)) = true /\
  Forall (fun w => is_word w = true) (snd (tokens s)).
Proof.
  induction s as [|c s [IHw IHws]]; simpl; [split; [reflexivity|constructor]|].
  destruct (tokens s) as [w ws]; simpl in *.
  destruct (isspace c) eqn:Ec; simpl.
  - split; [reflexivity|]. unfold cons_word.
    destruct w as [|a w]; simpl; [assumption|].
    constructor; [|assumption]. unfold is_word. simpl. exact IHw.
  - rewrite Ec, IHw. split; [reflexivity | assumption].
Qed.

Lemma split_words (s : string) : Forall (fun w => is_word w = true) (split s).
Proof.
  rewrite split_unfold. destruct (tokens_words s) as [Hw Hws].
  unfold cons_word. destruct (fst (tokens s)) as [|a w] eqn:E; simpl; [assumption|].
  constructor; [|assumption]. unfold is_word. simpl. exact Hw.
Qed.

Lemma tokens_no_space (w : string) : no_space w = true -> tokens w = (w, []).
Proof.
  induction w as [|c w IH]; simpl; [reflexivity|].
  intros H. apply andb_true_iff in H as [Hc Hw].
  rewrite (IH Hw). apply negb_true_iff in Hc. rewrite Hc. reflexivity.
Qed.

Lemma tokens_app_space (w t : string) :
  no_space w = true ->
  tokens (w ++ String " " t) = (w, split t).
Proof.
  induction w as [|c w IH]; intros H.
  - change ("" ++ String " " t)%string with (String " " t).
    rewrite tokens_cons. reflexivity.
  - simpl in H. apply andb_true_iff in H as [Hc Hw].
    change (String c w ++ String " " t)%string with (String c (w ++ String " " t)).
    rewrite tokens_cons, (IH Hw). apply negb_true_iff in Hc. rewrite Hc.
    reflexivity.
Qed.

(** Joining words with single spaces and splitting again gives the words
    back. *)
Lemma split_join_words (ws : list string) :
  Forall (fun w => is_word w = true) ws -> split (join " " ws) = ws.
Proof.
  induction ws as [|w ws IH]; intros H; [reflexivity|].
  inversion H as [|? ? Hw Hws]; subst.
  unfold is_word in Hw. apply andb_true_iff in Hw as [Hne Hns].
  destruct ws as [|w2 ws].
  - simpl. rewrite split_unfold, (tokens_no_space _ Hns). simpl.
    unfold cons_word. destruct w; [discriminate|reflexivity].
  - change (join " " (w :: w2 :: ws)) with (w ++ String " " (join " " (w2 :: ws)))%string.
    rewrite split_unfold, (tokens_app_space _ _ Hns). cbn [fst snd].
    rewrite (IH Hws). unfold cons_word. destruct w; [discriminate|reflexivity].
Qed.

Lemma word_count_join_words (ws : list string) :
  Forall (fun w => is_word w = true) ws ->
  word_count (join " " ws) = List.length ws.
Proof. intros H. unfold word_count. now rewrite split_join_words. Qed.

(** ** Normalisation of white space *)

Lemma collapse_tidy (b : bool) (s : string) : tidy b (collapse_from b s) = true.
Proof.
  revert b. induction s as [|c s IH]; intros b; simpl; [reflexivity|].
  destruct (isspace c) eqn:Ec.
  - destruct b; [apply IH|]. simpl. apply IH.
  - simpl. rewrite Ec. apply IH.
Qed.

Lemma tidy_collapse (b : bool) (s : string) :
  tidy b s = true -> collapse_from b s = s.
Proof.
  revert b. induction s as [|c s IH]; intros b; simpl; [reflexivity|].
  destruct (isspace c) eqn:Ec.
  - intros H. apply andb_true_iff in H as [H Hs].
    apply andb_true_iff in H as [Hc Hb].
    apply Ascii.eqb_eq in Hc. apply negb_true_iff in Hb. subst b c.
    now rewrite (IH _ Hs).
  - intros H. now rewrite (IH _ H).
Qed.

Lemma tidy_lstrip (b : bool) (s : string) :
  tidy b s = true -> tidy false (lstrip s) = true.
Proof.
  revert b. induction s as [|c s IH]; intros b; simpl; [reflexivity|].
  destruct (isspace c) eqn:Ec.
  - intros H. apply andb_true_iff in H as [_ Hs]. exact (IH _ Hs).
  - intros H. simpl. now rewrite Ec.
Qed.

Lemma tidy_rstrip (b : bool) (s : string) :
  tidy b s = true -> tidy b (rstrip s) = true.
Proof.
  revert b. induction s as [|c s IH]; intros b; simpl; [reflexivity|].
  destruct (isspace c) eqn:Ec; intros H.
  - apply andb_true_iff in H as [H Hs]. simpl.
    destruct (is_empty (rstrip s)); [reflexivity|].
    simpl. rewrite Ec, H. exact (IH _ Hs).
  - simpl. rewrite Ec. exact (IH _ H).
Qed.

Lemma lstrip_starts_clean (s : string) : starts_clean (lstrip s) = true.
Proof.
  induction s as [|c s IH]; simpl; [reflexivity|].
  destruct (isspace c) eqn:Ec; [exact IH|]. simpl. now rewrite Ec.
Qed.

Lemma starts_clean_lstrip (s : string) : starts_clean s = true -> lstrip s = s.
Proof.
  destruct s as [|c s]; simpl; [reflexivity|].
  intros H. apply negb_true_iff in H. now rewrite H.
Qed.

Lemma rstrip_starts_clean (s : string) :
  starts_clean s = true -> starts_clean (rstrip s) = true.
Proof.
  destruct s as [|c s]; simpl; [reflexivity|].
  intros H. apply negb_true_iff in H. rewrite H. simpl. now rewrite H.
Qed.

Lemma rstrip_idempotent (s : string) : rstrip (rstrip s) = rstrip s.
Proof.
  induction s as [|c s IH]; simpl; [reflexivity|].
  destruct (isspace c && is_empty (rstrip s)) eqn:E; [reflexivity|].
  simpl. rewrite IH, E. reflexivity.
Qed.

(** [re.sub(r'\s+', ' ', t).strip()] leaves its own results unchanged. *)
Lemma normalize_ws_idempotent (s : string) :
  strip (collapse_ws (strip (collapse_ws s))) = strip (collapse_ws s).
Proof.
  unfold strip, collapse_ws.
  set (t := rstrip (lstrip (collapse_from false s))).
  assert (Ht : tidy false t = true).
  { apply tidy_rstrip, (tidy_lstrip false), collapse_tidy. }
  assert (Hc : starts_clean t = true).
  { apply rstrip_starts_clean, lstrip_starts_clean. }
  rewrite (tidy_collapse _ _ Ht), (starts_clean_lstrip _ Hc).
  apply rstrip_idempotent.
Qed.

(** ** Chunks *)

Lemma slice_window {A} (i n : nat) (l : list A) :
  slice i (i + n) l = firstn n (skipn i l).
Proof. unfold slice. f_equal. lia. Qed.

Lemma make_chunks_words (words : list string) (n : nat) :
  make_chunks words n = map (join " ") (chunk_words words n).
Proof. unfold make_chunks, chunk_words. now rewrite map_map. Qed.

Lemma chunk_count_covers (len n : nat) :
  (0 < n)%nat -> (len <= (len + n - 1) / n * n)%nat.
Proof.
  intros Hn. pose proof (Nat.div_mod_eq (len + n - 1) n) as E.
  pose proof (Nat.mod_upper_bound (len + n - 1) n ltac:(lia)) as B.
  nia.
Qed.

Lemma chunk_count_tight (len n j : nat) :
  (0 < n)%nat -> (j < (len + n - 1) / n)%nat -> (j * n < len)%nat.
Proof.
  intros Hn Hj. pose proof (Nat.div_mod_eq (len + n - 1) n) as E.
  nia.
Qed.

Lemma concat_windows {A} (n k : nat) (l : list A) :
  (List.length l <= k * n)%nat ->
  concat (map (fun j => firstn n (skipn (j * n) l)) (seq 0 k)) = l.
Proof.
  revert l. induction k as [|k IH]; intros l Hl.
  - destruct l; [reflexivity | simpl in Hl; lia].
  - rewrite <- cons_seq, <- seq_shift, map_cons, map_map.
    change (concat (?x :: ?r)) with (x ++ concat r)%list.
    transitivity (firstn n l ++ skipn n l)%list; [|apply firstn_skipn].
    f_equal.
    rewrite <- (IH (skipn n l)) by (rewrite length_skipn; lia).
    f_equal. apply map_ext. intros j.
    rewrite skipn_skipn. do 2 f_equal. lia.
Qed.

(** The chunks are consecutive and cover the words, none lost or repeated. *)
Lemma chunk_words_concat (words : list string) (n : nat) :
  (0 < n)%nat -> concat (chunk_words words n) = words.
Proof.
  intros Hn. unfold chunk_words, range_step. rewrite map_map.
  rewrite <- (concat_windows n ((List.length words + n - 1) / n) words)
    at 2 by now apply chunk_count_covers.
  f_equal. apply map_ext. intros j. apply slice_window.
Qed.

Lemma chunk_words_length (words : list string) (n : nat) :
  List.length (chunk_words words n) = ((List.length words + n - 1) / n)%nat.
Proof. unfold chunk_words, range_step. now rewrite !length_map, length_seq. Qed.

(** Chunk [j] holds [n] words, but the last, which holds what is left. *)
Lemma chunk_words_nth (words : list string) (n j : nat) :
  (0 < n)%nat -> (j < List.length (chunk_words words n))%nat ->
  nth j (chunk_words words n) [] = firstn n (skipn (j * n) words) /\
  (j * n < List.length words)%nat /\
  List.length (nth j (chunk_words words n) []) =
    Nat.min n (List.length words - j * n).
Proof.
  intros Hn Hj. rewrite chunk_words_length in Hj.
  assert (E : nth j (chunk_words words n) [] = firstn n (skipn (j * n) words)).
  { unfold chunk_words, range_step. rewrite map_map.
    rewrite (nth_indep _ [] ((fun k => slice (k * n) (k * n + n) words) 0%nat))
      by now rewrite length_map, length_seq.
    rewrite (map_nth (fun k => slice (k * n) (k * n + n) words)).
    rewrite seq_nth by assumption. apply slice_window. }
  rewrite E. split; [reflexivity|]. split.
  - now apply chunk_count_tight.
  - now rewrite length_firstn, length_skipn.
Qed.

Lemma Forall_window {A} (P : A -> Prop) (i n : nat) (l : list A) :
  Forall P l -> Forall P (firstn n (skipn i l)).
Proof.
  intros H. rewrite <- (firstn_skipn i l) in H. apply Forall_app in H as [_ H].
  rewrite <- (firstn_skipn n (skipn i l)) in H. now apply Forall_app in H.
Qed.

Lemma chunk_words_are_words (words : list string) (n : nat) :
  Forall (fun w => is_word w = true) words ->
  Forall (Forall (fun w => is_word w = true)) (chunk_words words n).
Proof.
  intros H. unfold chunk_words. apply Forall_map, Forall_forall.
  intros i _. unfold slice. now apply Forall_window.
Qed.

(** A chunk, split again, is the slice it was joined from. *)
Lemma make_chunks_split (words : list string) (n : nat) :
  Forall (fun w => is_word w = true) words ->
  map split (make_chunks words n) = chunk_words words n.
Proof.
  intros H. rewrite make_chunks_words, map_map.
  rewrite <- (map_id (chunk_words words n)) at 2.
  apply map_ext_in. intros ws Hws. apply split_join_words.
  exact (proj1 (Forall_forall _ _) (chunk_words_are_words words n H) ws Hws).
Qed.

(** ** Sorting *)

Lemma insert_desc_perm (key : nat -> float) (x : nat) (l : list nat) :
  Permutation (insert_desc key x l) (x :: l).
Proof.
  induction l as [|y l IH]; simpl; [apply Permutation_refl|].
  destruct (PrimFloat.ltb (key x) (key y)); [|apply Permutation_refl].
  eapply perm_trans; [apply perm_skip, IH | apply perm_swap].
Qed.

Lemma sorted_reverse_perm (key : nat -> float) (l : list nat) :
  Permutation (sorted_reverse key l) l.
Proof.
  induction l as [|x l IH]; simpl; [constructor|].
  eapply perm_trans; [apply insert_desc_perm | now apply perm_skip].
Qed.

Lemma insert_asc_perm (x : nat) (l : list nat) :
  Permutation (insert_asc x l) (x :: l).
Proof.
  induction l as [|y l IH]; simpl; [apply Permutation_refl|].
  destruct (x <=? y)%nat; [apply Permutation_refl|].
  eapply perm_trans; [apply perm_skip, IH | apply perm_swap].
Qed.

Lemma sort_perm (l : list nat) : Permutation (sort l) l.
Proof.
  induction l as [|x l IH]; simpl; [constructor|].
  eapply perm_trans; [apply insert_asc_perm | now apply perm_skip].
Qed.

Lemma insert_asc_sorted (x : nat) (l : list nat) :
  StronglySorted le l -> StronglySorted le (insert_asc x l).
Proof.
  induction 1 as [|y l Hs IH Hy]; simpl; [repeat constructor|].
  destruct (x <=? y)%nat eqn:E.
  - apply Nat.leb_le in E. constructor; [now constructor|].
    constructor; [assumption|].
    eapply Forall_impl; [|exact Hy]. intros; lia.
  - apply Nat.leb_gt in E. constructor; [assumption|].
    eapply Permutation_Forall; [apply Permutation_sym, insert_asc_perm|].
    constructor; [lia | assumption].
Qed.

Lemma sort_sorted (l : list nat) : StronglySorted le (sort l).
Proof.
  induction l as [|x l IH]; simpl; [constructor | now apply insert_asc_sorted].
Qed.

Lemma sorted_nodup_strict (l : list nat) :
  StronglySorted le l -> NoDup l -> StronglySorted lt l.
Proof.
  induction 1 as [|x l Hs IH Hx]; intros Hnd; [constructor|].
  inversion Hnd as [|? ? Hnin Hnd']; subst.
  constructor; [now apply IH|].
  apply Forall_forall. intros y Hy.
  pose proof (proj1 (Forall_forall _ _) Hx y Hy) as Hle.
  assert (x <> y) by (intros ->; contradiction). lia.
Qed.

Lemma NoDup_firstn {A} (n : nat) (l : list A) : NoDup l -> NoDup (firstn n l).
Proof.
  intros H. rewrite <- (firstn_skipn n l) in H.
  exact (NoDup_app_remove_r _ _ H).
Qed.

(** ** The selection of the fallback summariser *)

Lemma sentence_scores_length (text : string) :
  List.length (sentence_scores text) = List.length (split_on ". " text).
Proof. unfold sentence_scores. now rewrite length_map, length_seq. Qed.

Lemma target_sentences_bounds (n : nat) :
  (2 <= target_sentences n <= 5)%nat.
Proof. unfold target_sentences. lia. Qed.

Lemma target_sentences_le (n : nat) :
  (4 <= n)%nat -> (target_sentences n <= n)%nat.
Proof.
  intros Hn. destruct (Nat.eq_dec n 4) as [->|Hne].
  - vm_compute. lia.
  - pose proof (target_sentences_bounds n). lia.
Qed.

Lemma top_sentences_perm (text : string) :
  exists rest,
    Permutation (top_sentences text ++ rest)
                (seq 0 (List.length (split_on ". " text))).
Proof.
  unfold top_sentences. rewrite sentence_scores_length.
  set (key := fun x => nth x (sentence_scores text) 0%float).
  set (n := List.length (split_on ". " text)).
  exists (skipn (target_sentences n) (sorted_reverse key (seq 0 n))).
  eapply perm_trans; [apply Permutation_app_tail, sort_perm|].
  rewrite firstn_skipn. apply sorted_reverse_perm.
Qed.

Lemma top_sentences_length (text : string) :
  (4 <= List.length (split_on ". " text))%nat ->
  List.length (top_sentences text) =
  target_sentences (List.length (split_on ". " text)).
Proof.
  intros Hn. unfold top_sentences.
  rewrite (Permutation_length (sort_perm _)), length_firstn.
  rewrite (Permutation_length (sorted_reverse_perm _ _)), length_seq.
  rewrite sentence_scores_length.
  pose proof (target_sentences_le _ Hn). lia.
Qed.

Lemma top_sentences_increasing (text : string) :
  StronglySorted lt (top_sentences text).
Proof.
  unfold top_sentences. apply sorted_nodup_strict; [apply sort_sorted|].
  eapply Permutation_NoDup; [apply Permutation_sym, sort_perm|].
  apply NoDup_firstn.
  eapply Permutation_NoDup; [apply Permutation_sym, sorted_reverse_perm|].
  apply seq_NoDup.
Qed.

Lemma top_sentences_in_range (text : string) :
  Forall (fun i => (i < List.length (split_on ". " text))%nat)
         (top_sentences text).
Proof.
  destruct (top_sentences_perm text) as [rest Hp].
  apply Forall_forall. intros i Hi.
  assert (In i (seq 0 (List.length (split_on ". " text)))) as Hin.
  { eapply Permutation_in; [exact Hp|]. apply in_or_app. now left. }
  apply in_seq in Hin. lia.
Qed.


(** ** The engine *)

Section Engine.

Variable summarizer : string -> Z -> Z -> result string.

Lemma summarize_chunks_run (chunks summaries : list string) (tr : list call) :
  summarize_chunks summarizer chunks summaries tr =
  (Ok (summaries ++ chunk_summaries summarizer chunks)%list,
   (tr ++ chunk_calls chunks)%list).
Proof.
  revert summaries tr. induction chunks as [|chunk rest IH]; intros summaries tr.
  - simpl. unfold ret. now rewrite !app_nil_r.
  - simpl. unfold bind, try_except, call_summarizer, ret.
    destruct (summarizer chunk (chunk_max_length chunk) 20%Z) as [s|e];
      rewrite IH; simpl; now rewrite <- !app_assoc.
Qed.

Lemma generate_summary_short (avail : bool) (text : string) (mw minw : Z) :
  (word_count text < 50)%nat ->
  run (generate_summary avail summarizer text mw minw) = (Ok advisory, []).
Proof.
  intros H. unfold generate_summary. apply Nat.ltb_lt in H. now rewrite H.
Qed.

Lemma generate_summary_fallback (text : string) (mw minw : Z) :
  (50 <= word_count text)%nat ->
  run (generate_summary false summarizer text mw minw) =
  (Ok (extractive_summary text), []).
Proof.
  intros H. unfold generate_summary. apply Nat.ltb_ge in H. now rewrite H.
Qed.

Lemma generate_summary_regular (text : string) (mw minw : Z) :
  (50 <= word_count text <= 1000)%nat ->
  run (generate_summary true summarizer text mw minw) =
  (match summarizer text (regular_max_len (word_count text) mw minw) minw with
   | Ok s => Ok s
   | Raise e => Ok ("Error generating summary: " ++ e)%string
   end,
   [mk_call text (regular_max_len (word_count text) mw minw) minw]).
Proof.
  intros [H1 H2]. unfold generate_summary.
  apply Nat.ltb_ge in H1. rewrite H1.
  assert (E : (1000 <? word_count text)%nat = false) by (apply Nat.ltb_ge; lia).
  rewrite E. unfold run, try_except, call_summarizer, ret. simpl.
  now destruct (summarizer text _ minw).
Qed.

Lemma generate_summary_long (text : string) (mw minw : Z) :
  (1000 < word_count text)%nat ->
  let chunks := make_chunks (split text) 800 in
  let combined := join " " (chunk_summaries summarizer chunks) in
  run (generate_summary true summarizer text mw minw) =
  if (mw <? Z.of_nat (word_count combined))%Z
  then (summarizer combined mw minw,
        (chunk_calls chunks ++ [mk_call combined mw minw])%list)
  else (Ok combined, chunk_calls chunks).
Proof.
  intros H chunks combined. unfold generate_summary.
  assert (E1 : (word_count text <? 50)%nat = false) by (apply Nat.ltb_ge; lia).
  apply Nat.ltb_lt in H. rewrite E1, H.
  unfold run, bind. rewrite summarize_chunks_run. simpl.
  fold chunks. fold combined.
  destruct (mw <? Z.of_nat (word_count combined))%Z; reflexivity.
Qed.

End Engine.

(** ** Arithmetic of the bounds

    [int(n * 0.3)] and [int(n * 0.4)] are computed in binary64; on the
    ranges the engine uses them they are the integer quotients. *)

Lemma int_times_03 (n : nat) :
  (n <= 4000)%nat ->
  int_of_float (float_of_int (Z.of_nat n) * 0.3) = (3 * Z.of_nat n / 10)%Z.
Proof.
  intros Hn.
  assert (H : forallb
            (fun k => Z.eqb (int_of_float (float_of_int (Z.of_nat k) * 0.3))
                            (3 * Z.of_nat k / 10))
            (seq 0 4001) = true) by (vm_compute; reflexivity).
  rewrite forallb_forall in H. apply Z.eqb_eq, H, in_seq. lia.
Qed.

Lemma int_times_04 (n : nat) :
  (n <= 2000)%nat ->
  int_of_float (float_of_int (Z.of_nat n) * 0.4) = (4 * Z.of_nat n / 10)%Z.
Proof.
  intros Hn.
  assert (H : forallb
            (fun k => Z.eqb (int_of_float (float_of_int (Z.of_nat k) * 0.4))
                            (4 * Z.of_nat k / 10))
            (seq 0 2001) = true) by (vm_compute; reflexivity).
  rewrite forallb_forall in H. apply Z.eqb_eq, H, in_seq. lia.
Qed.

(** The target of the fallback summariser is the truncated product. *)
Lemma target_sentences_floor (n : nat) :
  (n <= 4000)%nat ->
  target_sentences n = Z.to_nat (Z.max 2 (Z.min 5 (3 * Z.of_nat n / 10))).
Proof. intros Hn. unfold target_sentences. now rewrite int_times_03. Qed.

Lemma regular_max_len_floor (n : nat) (mw minw : Z) :
  (n <= 2000)%nat ->
  regular_max_len n mw minw = Z.min mw (Z.max minw (4 * Z.of_nat n / 10)).
Proof. intros Hn. unfold regular_max_len. now rewrite int_times_04. Qed.

Lemma chunk_max_length_floor (chunk : string) :
  (word_count chunk <= 4000)%nat ->
  chunk_max_length chunk = Z.min 100 (3 * Z.of_nat (word_count chunk) / 10).
Proof. intros Hn. unfold chunk_max_length. now rewrite int_times_03. Qed.



Lemma word_count_advisory : word_count advisory = 12%nat.
Proof. reflexivity. Qed.

(** ** The fallback summariser *)

Lemma extractive_summary_few (text : string) :
  (List.length (split_on ". " text) <= 3)%nat -> extractive_summary text = text.
Proof.
  intros H. unfold extractive_summary. apply Nat.leb_le in H. now rewrite H.
Qed.

Lemma extractive_summary_many (text : string) :
  (3 < List.length (split_on ". " text))%nat ->
  let joined :=
    join ". " (map (fun i => nth i (split_on ". " text) "") (top_sentences text)) in
  extractive_summary text =
  (if endswith_char "." joined then joined else joined ++ ".")%string.
Proof.
  intros H joined. unfold extractive_summary. apply Nat.leb_gt in H. rewrite H.
  fold joined. now destruct (endswith_char "." joined).
Qed.

Lemma extractive_summary_ends_with_period (text : string) :
  (3 < List.length (split_on ". " text))%nat ->
  endswith_char "." (extractive_summary text) = true.
Proof.
  intros H. rewrite (extractive_summary_many _ H).
  set (joined := join ". " _).
  destruct (endswith_char "." joined) eqn:E; [exact E | apply endswith_char_app].
Qed.

Lemma word_count_positive_nonempty (s : string) :
  (1 <= word_count s)%nat -> s <> "".
Proof. intros H ->. vm_compute in H. lia. Qed.

Lemma extractive_summary_has_words (text : string) :
  (1 <= word_count text)%nat -> (1 <= word_count (extractive_summary text))%nat.
Proof.
  intros H.
  destruct (Nat.le_gt_cases (List.length (split_on ". " text)) 3) as [Hn|Hn].
  - now rewrite extractive_summary_few.
  - apply word_count_has_nonspace, endswith_dot_has_nonspace.
    now apply extractive_summary_ends_with_period.
Qed.

(** ** The handler *)

Section Handler.

Variable TRANSFORMER_AVAILABLE : bool.
Variable summarizer : string -> Z -> Z -> result string.
Variable SPACY_AVAILABLE : bool.
Variable nlp_ents : string -> list entity.
Variable get_text : string -> string.
Variable re_findall : string -> bool -> string -> list string.
Variable now : string.

Let handler :=
  summarize TRANSFORMER_AVAILABLE summarizer SPACY_AVAILABLE nlp_ents get_text
            re_findall now.

(** What a successful answer was computed from. *)
Lemma summarize_success (history history' : list history_entry)
    (data : option request) (body : success_body) :
  handler history data = (Success body, history') ->
  exists rq,
    data = Some rq /\
    let cleaned := clean_text get_text (request_text rq) in
    let max_words := request_max_words rq in
    is_empty (strip (request_text rq)) = false /\
    (20 <= word_count cleaned)%nat /\
    fst (run (generate_summary TRANSFORMER_AVAILABLE summarizer cleaned max_words 30))
      = Ok (summary body) /\
    body = mk_body (summary body)
             (extract_entities SPACY_AVAILABLE nlp_ents re_findall cleaned)
             (word_count cleaned) (word_count (summary body))
             (round1 ((1 - int_truediv (Z.of_nat (word_count (summary body)))
                                       (Z.of_nat (word_count cleaned))) * 100)%float)
             now.
Proof.
  unfold handler, summarize. destruct data as [rq|]; [|discriminate].
  destruct (is_empty (strip (request_text rq))) eqn:Eb; [discriminate|].
  destruct (word_count (clean_text get_text (request_text rq)) <? 20)%nat eqn:Ew;
    [discriminate|].
  destruct (fst (run (generate_summary _ _ _ _ _))) as [s|e] eqn:Eg; [|discriminate].
  intros H. inversion H; subst; clear H. simpl.
  exists rq. repeat split; try assumption.
  now apply Nat.ltb_ge.
Qed.

(** Below the gate of 20 words the handler answers with an error about the
    input. *)
Lemma summarize_rejects_short (history : list history_entry) (rq : request) :
  (word_count (clean_text get_text (request_text rq)) < 20)%nat ->
  handler history (Some rq) =
    (Failure (if is_empty (strip (request_text rq))
              then "Please provide text to summarize"
              else "Text is too short. Please provide at least 20 words."),
     history).
Proof.
  intros H. unfold handler, summarize.
  destruct (is_empty (strip (request_text rq))); [reflexivity|].
  apply Nat.ltb_lt in H. now rewrite H.
Qed.


End Handler.

(** The history file never holds more than 50 records, and a new record is
    always the last one. *)
Lemma save_to_history_bounded (history : list history_entry)
    (original_text summary : string) (entities : list entity)
    (word_count : nat) (timestamp : string) :
  let history' :=
    save_to_history history original_text summary entities word_count timestamp in
  (List.length history <= 50)%nat ->
  List.length history' = Nat.min 50 (List.length history + 1) /\
  exists entry,
    last history' entry = entry /\ entry_summary entry = summary /\
    entry_id entry = (List.length history + 1)%nat.
Proof.
  intros history' H. unfold history', save_to_history.
  set (entry := mk_entry _ _ _ _ _ _ _).
  assert (L : List.length (history ++ [entry]) = (List.length history + 1)%nat)
    by (rewrite length_app; reflexivity).
  rewrite L.
  destruct (50 <? List.length history + 1)%nat eqn:E.
  - apply Nat.ltb_lt in E. assert (E50 : List.length history = 50%nat) by lia.
    split; [rewrite length_skipn, L; lia|].
    exists entry. split; [|split; reflexivity].
    replace (List.length history + 1 - 50)%nat with 1%nat by lia.
    destruct history as [|h history]; [discriminate|]. cbn [app skipn].
    apply last_last.
  - apply Nat.ltb_ge in E. split; [rewrite L; lia|].
    exists entry. split; [apply last_last | split; reflexivity].
Qed.

(** * The claims of the specification *)

(** ** C1 *)

(** C1, as stated, fails: with the model-backed strategy a text of 1001
    words whose chunk calls all raise gets the empty summary, of no words,
    and the handler returns it as a success. *)
Lemma empty_summary_over_fifty_words :
  let text := words_text 1001 "w" in
  (50 <=? word_count text)%nat = true /\
  fst (run (generate_summary true failing_summarizer text 150 30)) = Ok "" /\
  word_count "" = 0%nat /\
  exists body history,
    summarize true failing_summarizer false no_entities html_get_text
      no_matches "2024-01-01 00:00:00" []
      (Some (mk_request (Some text) None)) = (Success body, history) /\
    summary body = "" /\ summary_word_count body = 0%nat.
Proof.
  cbv zeta. split; [vm_compute; reflexivity|].
  split; [vm_compute; reflexivity|]. split; [reflexivity|].
  eexists. eexists. split; [vm_compute; reflexivity|]. split; reflexivity.
Qed.

(** C1 (amended).  A normalised text of fewer than 20 words is rejected by
    the handler with an error about the input and no summary; for a text of
    20 to 49 words the engine returns the fixed advisory, whatever the
    strategy; for a text of 50 words or more the fallback strategy returns a
    summary that is not empty and has at least one word.  With the
    model-backed strategy and 50 to 1000 words the engine returns what the
    pipeline returns or, when the call raises, an error string, which is not
    empty. *)
Theorem summary_by_word_count
    (avail : bool) (summarizer : string -> Z -> Z -> result string)
    (spacy : bool) (nlp_ents : string -> list entity)
    (get_text : string -> string)
    (re_findall : string -> bool -> string -> list string) (now : string)
    (history : list history_entry) (rq : request)
    (brief full : string) (max_words min_words : Z) :
  ((word_count (clean_text get_text (request_text rq)) < 20)%nat ->
   exists e,
     summarize avail summarizer spacy nlp_ents get_text re_findall now history
       (Some rq) = (Failure e, history) /\
     (e = "Please provide text to summarize" \/
      e = "Text is too short. Please provide at least 20 words.")) /\
  ((20 <= word_count brief < 50)%nat ->
   run (generate_summary avail summarizer brief max_words min_words)
   = (Ok advisory, [])) /\
  ((50 <= word_count full)%nat ->
   exists s,
     run (generate_summary false summarizer full max_words min_words)
     = (Ok s, []) /\
     s <> "" /\ (1 <= word_count s)%nat) /\
  ((50 <= word_count full <= 1000)%nat ->
   exists s,
     fst (run (generate_summary true summarizer full max_words min_words)) = Ok s /\
     match summarizer full (regular_max_len (word_count full) max_words min_words)
                      min_words with
     | Ok model_summary => s = model_summary
     | Raise _ => s <> "" /\ (1 <= word_count s)%nat
     end).
Proof.
  split; [|split; [|split]].
  - intros H. eexists. split; [now apply summarize_rejects_short|].
    destruct (is_empty _); auto.
  - intros [_ H]. now apply generate_summary_short.
  - intros H. exists (extractive_summary full).
    assert (Hw : (1 <= word_count (extractive_summary full))%nat)
      by (apply extractive_summary_has_words; lia).
    split; [now apply generate_summary_fallback|].
    split; [now apply word_count_positive_nonempty | exact Hw].
  - intros H. rewrite generate_summary_regular by assumption. cbn [fst].
    destruct (summarizer full _ min_words) as [model_summary|reason].
    + now exists model_summary.
    + eexists. split; [reflexivity|].
      split; [discriminate | now apply word_count_has_nonspace].
Qed.

(** The cases on concrete texts of 3, 25 and 60 words. *)
Lemma summary_by_word_count_witness :
  (exists e,
     summarize false echo_summarizer false no_entities html_get_text no_matches
       "2024-01-01 00:00:00" [] (Some (mk_request (Some "<p>far too short</p>") None))
     = (Failure e, []) /\
     (e = "Please provide text to summarize" \/
      e = "Text is too short. Please provide at least 20 words.")) /\
  run (generate_summary false echo_summarizer (words_text 25 "w") 150 30)
  = (Ok advisory, []) /\
  (exists s,
     run (generate_summary false echo_summarizer sixty_words 150 30) = (Ok s, []) /\
     s <> "" /\ (1 <= word_count s)%nat) /\
  (exists s,
     fst (run (generate_summary true echo_summarizer sixty_words 150 30)) = Ok s /\
     s = sixty_words).
Proof.
  destruct (summary_by_word_count false echo_summarizer false no_entities
              html_get_text no_matches "2024-01-01 00:00:00" []
              (mk_request (Some "<p>far too short</p>") None)
              (words_text 25 "w") sixty_words 150 30) as [A [B [C D]]].
  split; [|split; [|split]].
  - apply A. apply Nat.ltb_lt. vm_compute. reflexivity.
  - apply B. split; [apply Nat.leb_le | apply Nat.ltb_lt]; vm_compute; reflexivity.
  - apply C. apply Nat.leb_le. vm_compute. reflexivity.
  - apply D. split; apply Nat.leb_le; vm_compute; reflexivity.
Defined.

(** ** C2 *)

(** C2, as stated, fails twice.  Under the fallback strategy the engine does
    not chunk: on [long_text] it selects two sentences of the whole text,
    where the chunking policy would keep the 203 words of the two chunk
    summaries.  Under the model-backed strategy the bound of a chunk is the
    truncated product, not the rounded one: a last chunk of 9 words is
    summarised with [max_length = 2], not 3. *)
Lemma chunking_policy_counterexample :
  (1000 <? word_count long_text)%nat = true /\
  fst (run (generate_summary false echo_summarizer long_text 150 30)) = Ok "a. b." /\
  fst (run (generate_summary false echo_summarizer long_text 150 30))
    <> spec_long_summary fallback_strategy long_text 150 30 /\
  (1000 <? word_count (words_text 1609 "w"))%nat = true /\
  nth 2 (snd (run (generate_summary true echo_summarizer (words_text 1609 "w") 150 30)))
        (mk_call "" 0 0)
    = mk_call (words_text 9 "w") 2 20 /\
  spec_chunk_max_length (words_text 9 "w") = 3%Z.
Proof.
  split; [vm_compute; reflexivity|].
  split; [vm_compute; reflexivity|].
  split; [intros H; vm_compute in H; discriminate H|].
  split; [vm_compute; reflexivity|].
  split; vm_compute; reflexivity.
Qed.

(** C2 (amended).  With the model-backed strategy and a text of more than
    1000 words, the engine splits the words into consecutive chunks of 800
    (the last one holds the rest), calls the pipeline on each chunk with
    [max_length = min(100, floor(0.3 * chunk words))] and [min_length = 20],
    joins the summaries of the calls that returned, in the order of the
    chunks, with single spaces, and when the result has more than
    [max_words] words calls the pipeline once more on it with
    [(max_words, min_words)]; otherwise it returns the joined text.  With the
    fallback strategy there is no chunking: the result is the extractive
    summary of the whole text. *)
Theorem long_text_chunking
    (summarizer : string -> Z -> Z -> result string)
    (text : string) (max_words min_words : Z) :
  (1000 < word_count text)%nat ->
  let words := split text in
  let chunks := make_chunks words 800 in
  let combined := join " " (chunk_summaries summarizer chunks) in
  chunks = map (join " ") (chunk_words words 800) /\
  map split chunks = chunk_words words 800 /\
  concat (chunk_words words 800) = words /\
  List.length chunks = ((List.length words + 799) / 800)%nat /\
  (forall j, (j < List.length chunks)%nat ->
     (j * 800 < List.length words)%nat /\
     word_count (nth j chunks "") = Nat.min 800 (List.length words - j * 800) /\
     chunk_max_length (nth j chunks "")
     = Z.min 100 (3 * Z.of_nat (word_count (nth j chunks "")) / 10)) /\
  run (generate_summary true summarizer text max_words min_words)
  = (if (max_words <? Z.of_nat (word_count combined))%Z
     then (summarizer combined max_words min_words,
           (chunk_calls chunks ++ [mk_call combined max_words min_words])%list)
     else (Ok combined, chunk_calls chunks)) /\
  run (generate_summary false summarizer text max_words min_words)
  = (Ok (extractive_summary text), []).
Proof.
  intros H words chunks combined.
  assert (Hw : Forall (fun w => is_word w = true) words) by apply split_words.
  assert (Hs : map split chunks = chunk_words words 800)
    by now apply make_chunks_split.
  assert (Hl : List.length chunks = List.length (chunk_words words 800))
    by (rewrite <- Hs; now rewrite length_map).
  split; [apply make_chunks_words|]. split; [exact Hs|].
  split; [apply chunk_words_concat; lia|].
  split; [rewrite Hl, chunk_words_length; f_equal; lia|].
  split; [|split].
  - intros j Hj.
    assert (Hj' : (j < List.length (chunk_words words 800))%nat) by lia.
    destruct (chunk_words_nth words 800 j ltac:(lia) Hj') as [_ [Hlt Hlen]].
    assert (Hc : word_count (nth j chunks "")
                 = Nat.min 800 (List.length words - j * 800)).
    { unfold word_count. rewrite <- Hlen, <- Hs.
      f_equal. change [] with (split ""). now rewrite map_nth. }
    split; [exact Hlt|]. split; [exact Hc|].
    apply chunk_max_length_floor. rewrite Hc. lia.
  - now apply generate_summary_long.
  - apply generate_summary_fallback. lia.
Qed.

(** A text of 1609 words: three chunks, the last one of 9 words. *)
Lemma long_text_chunking_witness :
  (1000 < word_count (words_text 1609 "w"))%nat /\
  List.length (make_chunks (split (words_text 1609 "w")) 800) = 3%nat /\
  word_count (nth 2 (make_chunks (split (words_text 1609 "w")) 800) "") = 9%nat.
Proof.
  assert (H : (1000 < word_count (words_text 1609 "w"))%nat)
    by (apply Nat.ltb_lt; vm_compute; reflexivity).
  split; [exact H|].
  destruct (long_text_chunking echo_summarizer (words_text 1609 "w") 150 30 H)
    as [_ [_ [_ [Hn [Hj _]]]]].
  split.
  - rewrite Hn. vm_compute. reflexivity.
  - destruct (Hj 2%nat) as [_ [Hc _]].
    + rewrite Hn. apply Nat.ltb_lt. vm_compute. reflexivity.
    + rewrite Hc. vm_compute. reflexivity.
Defined.

(** ** C3 *)

(** C3, as stated, fails.  With nine sentences [round(9 * 0.3)] is 3, but the
    code takes [int(9 * 0.3)], which is 2, and selects two sentences.  And
    the result may end in more than one period: a period is added only when
    the joined sentences do not end with one already. *)
Lemma extractive_selection_counterexample :
  List.length (split_on ". " nine_sentences) = 9%nat /\
  spec_target_sentences 9 = 3%nat /\
  List.length (top_sentences nine_sentences) = 2%nat /\
  extractive_summary nine_sentences = "a. b." /\
  List.length (split_on ". " ellipsis_text) = 4%nat /\
  extractive_summary ellipsis_text = "a. b..".
Proof. repeat split; vm_compute; reflexivity. Qed.

(** C3 (amended).  For a text that splits into N >= 4 sentences on [". "],
    the fallback summariser selects exactly
    [max(2, min(5, int(N * 0.3)))] sentences, [int] truncating; the selected
    indices are distinct, in range and in increasing order, so the sentences
    come out in document order; they are joined with [". "], a period is
    appended unless the joined text already ends with one, and the result
    ends with a period. *)
Theorem extractive_selection (text : string) :
  let sentences := split_on ". " text in
  let n := List.length sentences in
  (4 <= n)%nat ->
  let joined := join ". " (map (fun i => nth i sentences "") (top_sentences text)) in
  List.length (top_sentences text) = target_sentences n /\
  ((n <= 4000)%nat ->
   target_sentences n = Z.to_nat (Z.max 2 (Z.min 5 (3 * Z.of_nat n / 10)))) /\
  StronglySorted lt (top_sentences text) /\
  Forall (fun i => (i < n)%nat) (top_sentences text) /\
  extractive_summary text
  = (if endswith_char "." joined then joined else joined ++ ".")%string /\
  endswith_char "." (extractive_summary text) = true.
Proof.
  intros sentences n Hn joined.
  split; [now apply top_sentences_length|].
  split; [apply target_sentences_floor|].
  split; [apply top_sentences_increasing|].
  split; [apply top_sentences_in_range|].
  split; [apply extractive_summary_many | apply extractive_summary_ends_with_period];
    fold sentences; fold n; lia.
Qed.

(** Four sentences: two are selected. *)
Lemma extractive_selection_witness :
  (4 <= List.length (split_on ". " sixty_words))%nat /\
  List.length (top_sentences sixty_words) = 2%nat /\
  endswith_char "." (extractive_summary sixty_words) = true.
Proof.
  assert (H : (4 <= List.length (split_on ". " sixty_words))%nat)
    by (apply Nat.leb_le; vm_compute; reflexivity).
  split; [exact H|].
  destruct (extractive_selection sixty_words H) as [Hl [_ [_ [_ [_ He]]]]].
  split; [rewrite Hl; vm_compute; reflexivity | exact He].
Defined.

(** ** C4 *)

(** C4.  In every successful answer of the handler, [original_word_count] is
    the word count of the normalised text, [summary_word_count] is the word
    count of the returned summary, and [compression_ratio] is
    [round((1 - summary_word_count / original_word_count) * 100, 1)]; the
    divisor is at least 20. *)
Theorem compression_ratio_formula
    (avail : bool) (summarizer : string -> Z -> Z -> result string)
    (spacy : bool) (nlp_ents : string -> list entity)
    (get_text : string -> string)
    (re_findall : string -> bool -> string -> list string) (now : string)
    (history history' : list history_entry) (data : option request)
    (body : success_body) :
  summarize avail summarizer spacy nlp_ents get_text re_findall now history data
  = (Success body, history') ->
  exists rq,
    data = Some rq /\
    original_word_count body = word_count (clean_text get_text (request_text rq)) /\
    summary_word_count body = word_count (summary body) /\
    (20 <= original_word_count body)%nat /\
    compression_ratio body
    = round1 ((1 - int_truediv (Z.of_nat (summary_word_count body))
                               (Z.of_nat (original_word_count body))) * 100)%float.
Proof.
  intros H. apply summarize_success in H as [rq [Hd H]]. cbv zeta in H.
  destruct H as [_ [Hw [_ Hb]]]. exists rq. split; [exact Hd|].
  rewrite Hb. simpl. repeat split. exact Hw.
Qed.

(** The answer to the sixty words of [sixty_words]. *)
Lemma compression_ratio_formula_witness :
  exists body,
    fst (summarize false echo_summarizer false no_entities html_get_text
           no_matches "2024-01-01 00:00:00" []
           (Some (mk_request (Some sixty_words) None)))
    = Success body /\
    (20 <= original_word_count body)%nat /\
    compression_ratio body
    = round1 ((1 - int_truediv (Z.of_nat (summary_word_count body))
                               (Z.of_nat (original_word_count body))) * 100)%float.
Proof.
  assert (H : exists body history',
             summarize false echo_summarizer false no_entities html_get_text
               no_matches "2024-01-01 00:00:00" []
               (Some (mk_request (Some sixty_words) None))
             = (Success body, history'))
    by (eexists; eexists; vm_compute; reflexivity).
  destruct H as [body [history' H]].
  destruct (compression_ratio_formula _ _ _ _ _ _ _ _ _ _ _ H)
    as [rq [_ [_ [_ [Hge Hc]]]]].
  exists body. rewrite H. repeat split; assumption.
Defined.

(** ** C5 *)

(** C5, as stated, fails: for a text of 77 words and the default bounds the
    specification's formula gives [round(30.8) = 31], and the engine passes
    [int(30.8) = 30]. *)
Lemma regular_length_bounds_counterexample :
  word_count (words_text 77 "w") = 77%nat /\
  snd (run (generate_summary true echo_summarizer (words_text 77 "w") 150 30))
  = [mk_call (words_text 77 "w") 30 30] /\
  spec_regular_max_len 77 150 30 = 31%Z.
Proof. repeat split; vm_compute; reflexivity. Qed.

(** C5 (amended).  For a text of 50 to 1000 words and the model-backed
    strategy the engine makes one call of the pipeline, on the whole text,
    with [max_length = min(max_words, max(min_words, floor(0.4 * words)))]
    and [min_length = min_words]. *)
Theorem regular_length_bounds
    (summarizer : string -> Z -> Z -> result string)
    (text : string) (max_words min_words : Z) :
  (50 <= word_count text <= 1000)%nat ->
  snd (run (generate_summary true summarizer text max_words min_words))
  = [mk_call text
       (Z.min max_words (Z.max min_words (4 * Z.of_nat (word_count text) / 10)))
       min_words].
Proof.
  intros H. rewrite generate_summary_regular by assumption.
  cbn [snd]. now rewrite regular_max_len_floor by lia.
Qed.

(** Sixty words: [max(30, int(24.0))] is 30. *)
Lemma regular_length_bounds_witness :
  (50 <= word_count sixty_words <= 1000)%nat /\
  snd (run (generate_summary true echo_summarizer sixty_words 150 30))
  = [mk_call sixty_words 30 30].
Proof.
  assert (H : (50 <= word_count sixty_words <= 1000)%nat)
    by (split; apply Nat.leb_le; vm_compute; reflexivity).
  split; [exact H|].
  rewrite (regular_length_bounds echo_summarizer sixty_words 150 30 H).
  vm_compute. reflexivity.
Defined.

(** ** C6 *)

(** The paths of the engine that guard their calls.  For a text of 50 to
    1000 words the failure of the pipeline call is caught (app.py 152-160) and
    the engine returns the string "Error generating summary: " followed by the
    reason.  The chunk loop catches a failure and passes the chunk over, so it
    never raises and collects the summaries of the calls that returned.  The
    advisory and the fallback strategy call nothing that can fail.  The call
    on the joined chunk summaries is not among them. *)
Lemma guarded_paths_never_raise
    (summarizer : string -> Z -> Z -> result string)
    (text : string) (max_words min_words : Z) :
  ((50 <= word_count text <= 1000)%nat ->
   forall reason,
     summarizer text (regular_max_len (word_count text) max_words min_words)
                min_words = Raise reason ->
     fst (run (generate_summary true summarizer text max_words min_words))
     = Ok ("Error generating summary: " ++ reason)%string) /\
  (forall chunks summaries tr,
     fst (summarize_chunks summarizer chunks summaries tr)
     = Ok (summaries ++ chunk_summaries summarizer chunks)%list) /\
  (forall avail, (word_count text < 50)%nat ->
     run (generate_summary avail summarizer text max_words min_words)
     = (Ok advisory, [])) /\
  ((50 <= word_count text)%nat ->
   run (generate_summary false summarizer text max_words min_words)
   = (Ok (extractive_summary text), [])).
Proof.
  split; [|split; [|split]].
  - intros H reason Hr. rewrite generate_summary_regular by assumption.
    cbn [fst]. now rewrite Hr.
  - intros chunks summaries tr. now rewrite summarize_chunks_run.
  - intros avail H. now apply generate_summary_short.
  - intros H. now apply generate_summary_fallback.
Qed.

(** A failing pipeline on sixty words, under both strategies. *)
Lemma guarded_paths_never_raise_witness :
  fst (run (generate_summary true failing_summarizer sixty_words 150 30))
  = Ok "Error generating summary: model failure" /\
  run (generate_summary false failing_summarizer sixty_words 150 30)
  = (Ok (extractive_summary sixty_words), []).
Proof.
  destruct (guarded_paths_never_raise failing_summarizer sixty_words 150 30)
    as [A [_ [_ D]]].
  split.
  - apply (A ltac:(split; apply Nat.leb_le; vm_compute; reflexivity)
             "model failure" eq_refl).
  - apply D. apply Nat.leb_le. vm_compute. reflexivity.
Defined.

(** C6.  The code breaks the claim at the call that summarises the joined
    chunk summaries again (app.py 143-148), which is outside every [try].
    The input is a text of 1001 words, with [max_words] 150 and [min_words]
    30, and a pipeline that raises "input too long" above 800 words.  Both
    chunk calls return, the joined chunk summaries have 1001 words, more than
    [max_words], and the call on them raises.  The engine then makes three
    calls and ends in that exception, not in a string: the reason reaches the
    user only through the handler of [/summarize], as "An error occurred: "
    followed by the reason.  On the sibling path (app.py 152-160) a pipeline
    that raises on sixty words is caught inside the engine, which returns
    "Error generating summary: " followed by the reason. *)
Theorem resummarization_failure_propagates :
  let text := words_text 1001 "w" in
  let chunks := make_chunks (split text) 800 in
  let combined := join " " (chunk_summaries bounded_summarizer chunks) in
  let r := run (generate_summary true bounded_summarizer text 150 30) in
  word_count text = 1001%nat /\
  chunk_summaries bounded_summarizer chunks = chunks /\
  word_count combined = 1001%nat /\
  bounded_summarizer combined 150 30 = Raise "input too long" /\
  snd r = (chunk_calls chunks ++ [mk_call combined 150 30])%list /\
  fst r = Raise "input too long" /\
  fst (summarize true bounded_summarizer false no_entities html_get_text
         no_matches "2024-01-01 00:00:00" []
         (Some (mk_request (Some text) None)))
  = Failure "An error occurred: input too long" /\
  fst (run (generate_summary true failing_summarizer sixty_words 150 30))
  = Ok "Error generating summary: model failure".
Proof. cbv zeta. repeat split; vm_compute; reflexivity. Qed.

(** ** C7 *)

Lemma filter_length_bound {A} (f : A -> bool) (l : list A) :
  (List.length (filter f l) <= List.length l)%nat.
Proof.
  induction l as [|x l IH]; simpl; [lia|]. destruct (f x); simpl; lia.
Qed.

Lemma count_label_app (label : string) (l1 l2 : list entity) :
  count_label label (l1 ++ l2) = (count_label label l1 + count_label label l2)%nat.
Proof. unfold count_label. now rewrite filter_app, length_app. Qed.

Lemma count_label_tagged (label tag : string) (xs : list string) :
  count_label label (map (fun x => (x, tag)) xs)
  = if String.eqb tag label then List.length xs else 0%nat.
Proof.
  unfold count_label. induction xs as [|x xs IH]; simpl.
  - now destruct (String.eqb tag label).
  - destruct (String.eqb tag label); simpl; [now rewrite IH | exact IH].
Qed.

(** C7.  The regex fallback returns the DATE entities, then the MONEY
    entities, then the PERSON/ORG entities; the dates are the first 5 matches
    of the date pattern at most, the amounts the first 5 matches of the money
    pattern at most, and the names are drawn from the first 10 matches of the
    name pattern at most, those of more than 3 characters; there are at most
    20 entities in all. *)
Theorem regex_entities_caps
    (nlp_ents : string -> list entity)
    (re_findall : string -> bool -> string -> list string) (text : string) :
  let dates := firstn 5 (re_findall date_pattern false text) in
  let money := firstn 5 (re_findall money_pattern true text) in
  let candidates := firstn 10 (re_findall name_pattern false text) in
  let names := filter (fun name => (3 <? String.length name)%nat) candidates in
  let result := extract_entities false nlp_ents re_findall text in
  result = (map (fun d => (d, "DATE")) dates
            ++ map (fun a => (a, "MONEY")) money
            ++ map (fun n => (n, "PERSON/ORG")) names)%list /\
  (List.length candidates <= 10)%nat /\
  Forall (fun n => (3 < String.length n)%nat) names /\
  (List.length result <= 20)%nat /\
  (count_label "DATE" result = List.length dates /\ List.length dates <= 5)%nat /\
  (count_label "MONEY" result = List.length money /\ List.length money <= 5)%nat /\
  (count_label "PERSON/ORG" result = List.length names /\
   List.length names <= 10)%nat.
Proof.
  intros dates money candidates names result.
  assert (Hd : (List.length dates <= 5)%nat) by apply firstn_le_length.
  assert (Hm : (List.length money <= 5)%nat) by apply firstn_le_length.
  assert (Hc : (List.length candidates <= 10)%nat) by apply firstn_le_length.
  assert (Hn : (List.length names <= 10)%nat).
  { pose proof (filter_length_bound
                  (fun name => (3 <? String.length name)%nat) candidates).
    fold names in H. lia. }
  assert (E : result = (map (fun d => (d, "DATE")) dates
                        ++ map (fun a => (a, "MONEY")) money
                        ++ map (fun n => (n, "PERSON/ORG")) names)%list).
  { unfold result, extract_entities, fallback_dates, fallback_money,
      fallback_names. cbn [negb]. fold dates money candidates names.
    rewrite <- app_assoc. apply firstn_all2.
    rewrite !length_app, !length_map. lia. }
  split; [exact E|]. split; [exact Hc|]. split.
  { apply Forall_forall. intros n Hin. apply filter_In in Hin as [_ Hin].
    now apply Nat.ltb_lt. }
  rewrite E, !length_app, !length_map, !count_label_app, !count_label_tagged.
  cbn [String.eqb Ascii.eqb Bool.eqb]. repeat split; lia.
Qed.

(** ** C8 *)

(** C8.  On a text that splits into 3 sentences or fewer on [". "] the
    fallback summariser returns the text unchanged, and so does the engine
    with the fallback strategy, once the text has the 50 words the engine
    asks for. *)
Theorem extractive_short_unchanged
    (summarizer : string -> Z -> Z -> result string)
    (text : string) (max_words min_words : Z) :
  (List.length (split_on ". " text) <= 3)%nat ->
  extractive_summary text = text /\
  ((50 <= word_count text)%nat ->
   run (generate_summary false summarizer text max_words min_words)
   = (Ok text, [])).
Proof.
  intros H. split; [now apply extractive_summary_few|].
  intros Hw. rewrite generate_summary_fallback by assumption.
  now rewrite extractive_summary_few.
Qed.

(** Three sentences come back unchanged. *)
Lemma extractive_short_unchanged_witness :
  (List.length (split_on ". " "One. Two. Three") <= 3)%nat /\
  extractive_summary "One. Two. Three" = "One. Two. Three".
Proof.
  assert (H : (List.length (split_on ". " "One. Two. Three") <= 3)%nat)
    by (apply Nat.leb_le; reflexivity).
  split; [exact H|].
  exact (proj1 (extractive_short_unchanged echo_summarizer "One. Two. Three"
                  150 30 H)).
Defined.

(** ** C9 *)

(** C9, as stated, fails: the parser decodes character references, so the
    normalised text can hold markup that a second pass removes. *)
Lemma clean_text_not_idempotent :
  clean_text html_get_text "x &lt;b&gt; y" = "x <b> y" /\
  clean_text html_get_text (clean_text html_get_text "x &lt;b&gt; y") = "x y" /\
  clean_text html_get_text (clean_text html_get_text "x &lt;b&gt; y")
  <> clean_text html_get_text "x &lt;b&gt; y".
Proof.
  split; [reflexivity|]. split; [reflexivity|].
  intros H. vm_compute in H. discriminate H.
Qed.

(** C9 (amended).  The white-space stage of the normaliser leaves normalised
    text unchanged, and normalising twice is normalising once whenever the
    parser leaves the normalised text unchanged (it holds no markup and no
    character reference). *)
Theorem clean_text_idempotent_on_plain_text
    (get_text : string -> string) (raw_html : string) :
  strip (collapse_ws (clean_text get_text raw_html)) = clean_text get_text raw_html /\
  (get_text (clean_text get_text raw_html) = clean_text get_text raw_html ->
   clean_text get_text (clean_text get_text raw_html)
   = clean_text get_text raw_html).
Proof.
  assert (H : strip (collapse_ws (clean_text get_text raw_html))
              = clean_text get_text raw_html)
    by (unfold clean_text; apply normalize_ws_idempotent).
  split; [exact H|]. intros Hp.
  unfold clean_text at 1. now rewrite Hp.
Qed.

(** Markup whose text holds no markup. *)
Lemma clean_text_idempotent_on_plain_text_witness :
  clean_text html_get_text "<p>Hello   world</p>" = "Hello world" /\
  clean_text html_get_text (clean_text html_get_text "<p>Hello   world</p>")
  = clean_text html_get_text "<p>Hello   world</p>".
Proof.
  split; [reflexivity|].
  apply (proj2 (clean_text_idempotent_on_plain_text html_get_text
                  "<p>Hello   world</p>")).
  reflexivity.
Defined.

(** ** C10 *)




(** * Further properties of the module *)

(** ** The history file *)

Lemma save_to_history_unfold (history : list history_entry)
    (original_text summary : string) (entities : list entity)
    (word_count : nat) (timestamp : string) :
  save_to_history history original_text summary entities word_count timestamp
  = let entry :=
      new_entry history original_text summary entities word_count timestamp in
    if (50 <=? List.length history)%nat
    then skipn (List.length history - 49) (history ++ [entry])
    else (history ++ [entry])%list.
Proof.
  unfold save_to_history, new_entry. cbv zeta.
  rewrite length_app. cbn [List.length].
  destruct (50 <? List.length history + 1)%nat eqn:E1;
    destruct (50 <=? List.length history)%nat eqn:E2;
    try reflexivity.
  - f_equal. apply Nat.leb_le in E2. lia.
  - apply Nat.ltb_lt in E1. apply Nat.leb_gt in E2. lia.
  - apply Nat.ltb_ge in E1. apply Nat.leb_le in E2. lia.
Qed.

Lemma last_app_singleton {A} (l : list A) (x d : A) : last (l ++ [x]) d = x.
Proof. apply last_last. Qed.

Lemma skipn_app_singleton {A} (n : nat) (l : list A) (x : A) :
  (n <= List.length l)%nat -> skipn n (l ++ [x]) = (skipn n l ++ [x])%list.
Proof.
  intros H. rewrite skipn_app.
  replace (n - List.length l)%nat with 0%nat by lia. reflexivity.
Qed.

Lemma save_to_history_keeps_recent_aux (history : list history_entry)
    (original_text summary : string) (entities : list entity)
    (word_count : nat) (timestamp : string) :
  List.length
    (save_to_history history original_text summary entities word_count timestamp)
  = Nat.min 50 (List.length history + 1) /\
  save_to_history history original_text summary entities word_count timestamp
  = (skipn (List.length history - 49) history
     ++ [new_entry history original_text summary entities word_count timestamp])%list.
Proof.
  assert (E : save_to_history history original_text summary entities word_count
                timestamp
              = (skipn (List.length history - 49) history
                 ++ [new_entry history original_text summary entities word_count
                       timestamp])%list).
  { rewrite save_to_history_unfold. cbv zeta.
    destruct (50 <=? List.length history)%nat eqn:E.
    - apply skipn_app_singleton. lia.
    - apply Nat.leb_gt in E.
      replace (List.length history - 49)%nat with 0%nat by lia. reflexivity. }
  split; [|exact E].
  rewrite E, length_app, length_skipn. cbn [List.length]. lia.
Qed.

(** X1.  Whatever the history, after [save_to_history] it holds at most 50
    records: one more than before, capped at 50.  What is kept is the end of
    the old history followed by the new record; nothing is dropped below the
    cap. *)
Theorem save_to_history_keeps_recent (history : list history_entry)
    (original_text summary : string) (entities : list entity)
    (word_count : nat) (timestamp : string) :
  let entry :=
    new_entry history original_text summary entities word_count timestamp in
  let history' :=
    save_to_history history original_text summary entities word_count timestamp in
  List.length history' = Nat.min 50 (List.length history + 1) /\
  history' = (skipn (List.length history - 49) history ++ [entry])%list /\
  forall d, last history' d = entry.
Proof.
  intros entry history'.
  destruct (save_to_history_keeps_recent_aux history original_text summary
              entities word_count timestamp) as [L E].
  split; [exact L|]. split; [exact E|].
  intros d. unfold history'. rewrite E. apply last_last.
Qed.

Lemma save_to_history_below_cap (history : list history_entry)
    (original_text summary : string) (entities : list entity)
    (word_count : nat) (timestamp : string) :
  (List.length history < 50)%nat ->
  save_to_history history original_text summary entities word_count timestamp
  = (history
     ++ [new_entry history original_text summary entities word_count timestamp])%list.
Proof.
  intros H. rewrite save_to_history_unfold. cbv zeta.
  apply Nat.leb_gt in H. now rewrite H.
Qed.

Lemma save_all_ids (records : list saved_record) (history : list history_entry) :
  (List.length history + List.length records <= 50)%nat ->
  map entry_id (save_all history records)
  = (map entry_id history
     ++ seq (List.length history + 1) (List.length records))%list /\
  List.length (save_all history records)
  = (List.length history + List.length records)%nat.
Proof.
  revert history. induction records as [|r records IH]; intros history H.
  - simpl. rewrite app_nil_r. split; [reflexivity | lia].
  - destruct r as [[[[t s] e] wc] ts]. cbn [List.length] in H.
    change (save_all history ((t, s, e, wc, ts) :: records))
      with (save_all (save_to_history history t s e wc ts) records).
    rewrite save_to_history_below_cap by lia.
    destruct (IH (history ++ [new_entry history t s e wc ts])%list) as [IH1 IH2].
    { rewrite length_app. cbn [List.length]. lia. }
    rewrite IH1, IH2, !length_app, map_app. cbn [List.length map new_entry entry_id].
    split; [|lia]. rewrite <- app_assoc. cbn [app seq].
    do 3 f_equal. lia.
Qed.

(** X2.  From an empty history file, saving up to 50 records numbers them
    1, 2, 3, ... in the order they were saved, and all of them are kept. *)
Theorem history_ids_sequential (records : list saved_record) :
  (List.length records <= 50)%nat ->
  map entry_id (save_all [] records) = seq 1 (List.length records) /\
  map entry_summary (save_all [] records)
  = map (fun '(_, summary, _, _, _) => summary) records.
Proof.
  intros H. split; [apply (save_all_ids records []); simpl; lia|].
  assert (G : forall rs history,
             (List.length history + List.length rs <= 50)%nat ->
             map entry_summary (save_all history rs)
             = (map entry_summary history
                ++ map (fun '(_, summary, _, _, _) => summary) rs)%list).
  { induction rs as [|r rs IH]; intros history Hl.
    - simpl. now rewrite app_nil_r.
    - destruct r as [[[[t s] e] wc] ts]. cbn [List.length] in Hl.
      change (save_all history ((t, s, e, wc, ts) :: rs))
        with (save_all (save_to_history history t s e wc ts) rs).
      rewrite save_to_history_below_cap by lia.
      rewrite IH by (rewrite length_app; cbn [List.length]; lia).
      rewrite map_app, <- app_assoc. reflexivity. }
  apply (G records []). simpl. lia.
Qed.

(** Five records saved to an empty file. *)
Lemma history_ids_sequential_witness :
  map entry_id (save_all [] five_records) = [1; 2; 3; 4; 5]%nat /\
  map entry_summary (save_all [] five_records)
  = ["one"; "two"; "three"; "four"; "five"].
Proof.
  apply (history_ids_sequential five_records). vm_compute. lia.
Defined.

(** X3.  Once the file holds 50 records, the identifier is computed from a
    length that no longer grows: every new record is numbered 51, so the
    identifiers of the file are no longer distinct. *)
Theorem history_ids_repeat_at_cap (history : list history_entry)
    (t1 s1 t2 s2 : string) (e1 e2 : list entity) (wc1 wc2 : nat)
    (ts1 ts2 : string) :
  List.length history = 50%nat ->
  exists kept entry1 entry2,
    save_to_history (save_to_history history t1 s1 e1 wc1 ts1) t2 s2 e2 wc2 ts2
    = (kept ++ [entry1; entry2])%list /\
    List.length kept = 48%nat /\
    entry_summary entry1 = s1 /\ entry_summary entry2 = s2 /\
    entry_id entry1 = 51%nat /\ entry_id entry2 = 51%nat.
Proof.
  intros H.
  pose proof (save_to_history_keeps_recent_aux history t1 s1 e1 wc1 ts1) as [L1 E1].
  set (h1 := save_to_history history t1 s1 e1 wc1 ts1) in *.
  pose proof (save_to_history_keeps_recent_aux h1 t2 s2 e2 wc2 ts2) as [L2 E2].
  assert (Lh1 : List.length h1 = 50%nat) by lia.
  exists (skipn 1 (skipn 1 history)), (new_entry history t1 s1 e1 wc1 ts1),
         (new_entry h1 t2 s2 e2 wc2 ts2).
  split; [|split; [|repeat split]].
  - rewrite E2, Lh1, E1, H. cbn [Nat.sub].
    rewrite skipn_app_singleton by (rewrite length_skipn; lia).
    rewrite <- app_assoc. reflexivity.
  - rewrite !length_skipn. lia.
  - unfold new_entry. cbn [entry_id]. lia.
  - unfold new_entry. cbn [entry_id]. lia.
Qed.

(** Two records saved to a full file. *)
Lemma history_ids_repeat_at_cap_witness :
  exists kept entry1 entry2,
    save_to_history
      (save_to_history full_history "text" "fifty-first" [] 30 "2024-01-02 00:00:00")
      "text" "fifty-second" [] 30 "2024-01-03 00:00:00"
    = (kept ++ [entry1; entry2])%list /\
    entry_summary entry1 = "fifty-first" /\ entry_summary entry2 = "fifty-second" /\
    entry_id entry1 = 51%nat /\ entry_id entry2 = 51%nat.
Proof.
  destruct (history_ids_repeat_at_cap full_history
              "text" "fifty-first" "text" "fifty-second" [] [] 30 30
              "2024-01-02 00:00:00" "2024-01-03 00:00:00")
    as [kept [entry1 [entry2 [E [_ [S1 [S2 [I1 I2]]]]]]]].
  - vm_compute. reflexivity.
  - exists kept, entry1, entry2. repeat split; assumption.
Defined.

Lemma string_length_app (a b : string) :
  String.length (a ++ b) = (String.length a + String.length b)%nat.
Proof. induction a as [|c a IH]; simpl; [reflexivity | now rewrite IH]. Qed.

Lemma substring_0_length (n : nat) (s : string) :
  String.length (String.substring 0 n s) = Nat.min n (String.length s).
Proof.
  revert s. induction n as [|n IH]; intros [|c s]; simpl; try reflexivity.
  now rewrite IH.
Qed.

Lemma substring_0_prefix (n : nat) (s : string) :
  String.prefix (String.substring 0 n s) s = true.
Proof.
  revert s. induction n as [|n IH]; intros [|c s]; simpl; try reflexivity.
  destruct (ascii_dec c c) as [_|N]; [apply IH | now elim N].
Qed.

(** X4.  The text kept in a history record is a preview: the whole text when
    it has at most 200 characters, and otherwise its first 200 characters
    followed by three dots; it never has more than 203 characters. *)
Theorem history_preview (history : list history_entry)
    (original_text summary : string) (entities : list entity)
    (word_count : nat) (timestamp : string) (d : history_entry) :
  let preview :=
    entry_original_text
      (last (save_to_history history original_text summary entities word_count
               timestamp) d) in
  (String.length preview <= 203)%nat /\
  ((String.length original_text <= 200)%nat -> preview = original_text) /\
  ((200 < String.length original_text)%nat ->
   String.length preview = 203%nat /\
   exists head,
     preview = (head ++ "...")%string /\ String.length head = 200%nat /\
     String.prefix head original_text = true).
Proof.
  intros preview.
  assert (E : preview
              = if (200 <? String.length original_text)%nat
                then (String.substring 0 200 original_text ++ "...")%string
                else original_text).
  { unfold preview.
    destruct (save_to_history_keeps_recent_aux history original_text summary
                entities word_count timestamp) as [_ ->].
    now rewrite last_last. }
  rewrite E. clear E preview.
  destruct (200 <? String.length original_text)%nat eqn:L.
  - apply Nat.ltb_lt in L.
    assert (H200 : String.length (String.substring 0 200 original_text) = 200%nat)
      by (rewrite substring_0_length; lia).
    assert (H203 : String.length (String.substring 0 200 original_text ++ "...")
                   = 203%nat)
      by (rewrite string_length_app, H200; reflexivity).
    split; [lia|]. split; [lia|]. intros _. split; [exact H203|].
    exists (String.substring 0 200 original_text).
    split; [reflexivity|]. split; [exact H200 | apply substring_0_prefix].
  - apply Nat.ltb_ge in L. split; [lia|]. split; [reflexivity | lia].
Qed.

(** A text of 250 characters and one of 11. *)
Lemma history_preview_witness :
  String.length
    (entry_original_text
       (last (save_to_history [] (words_text 125 "w") "s" [] 125 "t")
             (mk_entry 0 "" 0 "" "" [] 0))) = 203%nat /\
  entry_original_text
    (last (save_to_history [] "short text" "s" [] 2 "t")
          (mk_entry 0 "" 0 "" "" [] 0)) = "short text".
Proof.
  split.
  - apply (history_preview [] (words_text 125 "w") "s" [] 125 "t").
    apply Nat.ltb_lt. vm_compute. reflexivity.
  - apply (history_preview [] "short text" "s" [] 2 "t").
    apply Nat.leb_le. vm_compute. reflexivity.
Defined.

Lemma last_n_length {A} (n : nat) (l : list A) :
  List.length (last_n n l) = Nat.min n (List.length l).
Proof. unfold last_n. rewrite length_skipn. lia. Qed.

Lemma last_n_suffix {A} (n : nat) (l : list A) :
  (firstn (List.length l - n) l ++ last_n n l)%list = l.
Proof. apply firstn_skipn. Qed.

Lemma last_skipn {A} (n : nat) (l : list A) (d : A) :
  (n < List.length l)%nat -> last (skipn n l) d = last l d.
Proof.
  revert l. induction n as [|n IH]; intros l H; [reflexivity|].
  destruct l as [|x l]; [simpl in H; lia|].
  cbn [skipn]. rewrite IH by (simpl in H; lia).
  destruct l; [simpl in H; lia | reflexivity].
Qed.

(** X5.  [/history] returns the last records of the file, at most 10 of them;
    right after a record has been saved, it is the last one returned. *)
Theorem get_history_recent (file : history_file)
    (original_text summary : string) (entities : list entity)
    (word_count : nat) (timestamp : string) :
  (List.length (get_history file) = Nat.min 10 (List.length (load_history file)) /\
   exists older, load_history file = (older ++ get_history file)%list) /\
  let file' :=
    save_to_history_file file original_text summary entities word_count
      timestamp in
  List.length (get_history file')
  = Nat.min 10 (List.length (load_history file) + 1) /\
  forall d,
    last (get_history file') d
    = new_entry (load_history file) original_text summary entities word_count
        timestamp.
Proof.
  split.
  - split; [apply last_n_length|].
    exists (firstn (List.length (load_history file) - 10) (load_history file)).
    symmetry. apply last_n_suffix.
  - intros file'.
    destruct (save_to_history_keeps_recent_aux (load_history file) original_text
                summary entities word_count timestamp) as [L E].
    unfold file', save_to_history_file, get_history. cbn [load_history].
    split; [rewrite last_n_length, L; lia|].
    intros d. unfold last_n. rewrite last_skipn by (rewrite L; lia).
    rewrite E. apply last_last.
Qed.

(** X6.  After [/clear-history] the history is empty, whether or not the file
    existed; clearing twice is clearing once; and the next record saved is
    the only one of the file and is numbered 1. *)
Theorem clear_history_resets (file : history_file)
    (original_text summary : string) (entities : list entity)
    (word_count : nat) (timestamp : string) :
  get_history (clear_history file) = [] /\
  clear_history (clear_history file) = clear_history file /\
  exists entry,
    save_to_history_file (clear_history file) original_text summary entities
      word_count timestamp = Some [entry] /\
    entry_id entry = 1%nat /\ entry_summary entry = summary.
Proof.
  assert (E : clear_history file = None) by (destruct file; reflexivity).
  rewrite E. split; [reflexivity|]. split; [reflexivity|].
  eexists. split; [reflexivity|]. split; reflexivity.
Qed.

(** ** The engine and the handler *)

(** X7.  The engine raises in one situation only: the transformers pipeline
    is in use, the text has more than 1000 words, the joined chunk summaries
    have more than [max_words] words, and the call that summarises them
    again raises; the exception is that call's. *)
Theorem generate_summary_raises_iff
    (avail : bool) (summarizer : string -> Z -> Z -> result string)
    (text : string) (max_words min_words : Z) (reason : string) :
  let combined :=
    join " " (chunk_summaries summarizer (make_chunks (split text) 800)) in
  fst (run (generate_summary avail summarizer text max_words min_words))
  = Raise reason
  <->
  avail = true /\ (1000 < word_count text)%nat /\
  (max_words < Z.of_nat (word_count combined))%Z /\
  summarizer combined max_words min_words = Raise reason.
Proof.
  intros combined.
  destruct (Nat.lt_ge_cases (word_count text) 50) as [Hs|Hs].
  { rewrite generate_summary_short by assumption. cbn [fst].
    split; [discriminate | intros [_ [H _]]; lia]. }
  destruct avail.
  2:{ rewrite generate_summary_fallback by assumption. cbn [fst].
      split; [discriminate | intros [H _]; discriminate]. }
  destruct (Nat.le_gt_cases (word_count text) 1000) as [Hl|Hl].
  { rewrite generate_summary_regular by lia. cbn [fst].
    split; [destruct (summarizer text _ min_words); discriminate
           | intros [_ [H _]]; lia]. }
  pose proof (generate_summary_long summarizer text max_words min_words Hl) as E.
  cbv zeta in E. fold combined in E. rewrite E.
  destruct (max_words <? Z.of_nat (word_count combined))%Z eqn:Em; cbn [fst].
  - apply Z.ltb_lt in Em. split; [intros H; repeat split; assumption|].
    now intros [_ [_ [_ H]]].
  - apply Z.ltb_ge in Em. split; [discriminate | intros [_ [_ [H _]]]; lia].
Qed.

Section HandlerHistory.

Variable TRANSFORMER_AVAILABLE : bool.
Variable summarizer : string -> Z -> Z -> result string.
Variable SPACY_AVAILABLE : bool.
Variable nlp_ents : string -> list entity.
Variable get_text : string -> string.
Variable re_findall : string -> bool -> string -> list string.
Variable now : string.

Let handler :=
  summarize TRANSFORMER_AVAILABLE summarizer SPACY_AVAILABLE nlp_ents get_text
            re_findall now.

Lemma summarize_failure_history (history history' : list history_entry)
    (data : option request) (e : string) :
  handler history data = (Failure e, history') -> history' = history.
Proof.
  unfold handler, summarize. destruct data as [rq|]; [|congruence].
  destruct (is_empty (strip (request_text rq))); [congruence|].
  destruct (word_count (clean_text get_text (request_text rq)) <? 20)%nat;
    [congruence|].
  destruct (fst (run (generate_summary _ _ _ _ _))); congruence.
Qed.

Lemma summarize_success_history (history history' : list history_entry)
    (data : option request) (body : success_body) :
  handler history data = (Success body, history') ->
  exists rq,
    data = Some rq /\
    history'
    = save_to_history history (clean_text get_text (request_text rq))
        (summary body) (entities body) (original_word_count body)
        (timestamp body).
Proof.
  unfold handler, summarize. destruct data as [rq|]; [|discriminate].
  destruct (is_empty (strip (request_text rq))); [discriminate|].
  destruct (word_count (clean_text get_text (request_text rq)) <? 20)%nat;
    [discriminate|].
  destruct (fst (run (generate_summary _ _ _ _ _))) as [s|e]; [|discriminate].
  intros H. inversion H; subst; clear H. exists rq. split; reflexivity.
Qed.

Lemma summarize_engine_raises (history : list history_entry) (rq : request)
    (reason : string) :
  is_empty (strip (request_text rq)) = false ->
  (20 <= word_count (clean_text get_text (request_text rq)))%nat ->
  fst (run (generate_summary TRANSFORMER_AVAILABLE summarizer
             (clean_text get_text (request_text rq)) (request_max_words rq) 30))
  = Raise reason ->
  handler history (Some rq)
  = (Failure ("An error occurred: " ++ reason)%string, history).
Proof.
  intros Hb Hw Hr. unfold handler, summarize. rewrite Hb.
  apply Nat.ltb_ge in Hw. rewrite Hw, Hr. reflexivity.
Qed.

End HandlerHistory.

Lemma compression_ratio_formula_aux
    (avail : bool) (summarizer : string -> Z -> Z -> result string)
    (spacy : bool) (nlp_ents : string -> list entity)
    (get_text : string -> string)
    (re_findall : string -> bool -> string -> list string) (now : string)
    (history history' : list history_entry) (data : option request)
    (body : success_body) :
  summarize avail summarizer spacy nlp_ents get_text re_findall now history data
  = (Success body, history') ->
  summary_word_count body = word_count (summary body).
Proof.
  intros H. apply summarize_success in H as [rq [_ H]]. cbv zeta in H.
  destruct H as [_ [_ [_ Hb]]]. rewrite Hb. reflexivity.
Qed.

(** X8.  An answer of [/summarize] that is an error leaves the history as it
    was: only successful summaries are recorded. *)
Theorem summarize_failure_keeps_history
    (avail : bool) (summarizer : string -> Z -> Z -> result string)
    (spacy : bool) (nlp_ents : string -> list entity)
    (get_text : string -> string)
    (re_findall : string -> bool -> string -> list string) (now : string)
    (history history' : list history_entry) (data : option request)
    (error : string) :
  summarize avail summarizer spacy nlp_ents get_text re_findall now history data
  = (Failure error, history') ->
  history' = history.
Proof. apply summarize_failure_history. Qed.

(** A request with no text, on a history of fifty records. *)
Lemma summarize_failure_keeps_history_witness :
  snd (summarize false echo_summarizer false no_entities html_get_text py_findall
         "2024-01-01 00:00:00" full_history (Some (mk_request None None)))
  = full_history.
Proof.
  apply (summarize_failure_keeps_history false echo_summarizer false no_entities
           html_get_text py_findall "2024-01-01 00:00:00" full_history _
           (Some (mk_request None None)) "Please provide text to summarize").
  vm_compute. reflexivity.
Defined.

(** X9.  A successful answer of [/summarize] adds exactly one record to the
    history (within the cap of 50), placed last, and the record agrees with
    the answer: same summary, entities, word counts and timestamp, and the
    summary word count stored is the one returned. *)
Theorem summarize_success_records
    (avail : bool) (summarizer : string -> Z -> Z -> result string)
    (spacy : bool) (nlp_ents : string -> list entity)
    (get_text : string -> string)
    (re_findall : string -> bool -> string -> list string) (now : string)
    (history history' : list history_entry) (data : option request)
    (body : success_body) (d : history_entry) :
  summarize avail summarizer spacy nlp_ents get_text re_findall now history data
  = (Success body, history') ->
  List.length history' = Nat.min 50 (List.length history + 1) /\
  exists kept,
    history' = (kept ++ [last history' d])%list /\
    kept = skipn (List.length history - 49) history /\
    entry_id (last history' d) = (List.length history + 1)%nat /\
    entry_summary (last history' d) = summary body /\
    entry_entities (last history' d) = entities body /\
    entry_original_word_count (last history' d) = original_word_count body /\
    entry_summary_word_count (last history' d) = summary_word_count body /\
    entry_timestamp (last history' d) = timestamp body.
Proof.
  intros H.
  pose proof (compression_ratio_formula_aux _ _ _ _ _ _ _ _ _ _ _ H) as Hswc.
  apply summarize_success_history in H as [rq [_ ->]].
  destruct (save_to_history_keeps_recent_aux history
              (clean_text get_text (request_text rq)) (summary body)
              (entities body) (original_word_count body) (timestamp body))
    as [L E].
  split; [exact L|].
  exists (skipn (List.length history - 49) history).
  rewrite E, last_last. split; [reflexivity|]. split; [reflexivity|].
  unfold new_entry. cbn. repeat split. now rewrite Hswc.
Qed.

(** Sixty words, summarised into an empty history. *)
Lemma summarize_success_records_witness :
  exists body history',
    summarize false echo_summarizer false no_entities html_get_text py_findall
      "2024-01-01 00:00:00" [] (Some (mk_request (Some sixty_words) None))
    = (Success body, history') /\
    List.length history' = 1%nat /\
    entry_summary (last history' (mk_entry 0 "" 0 "" "" [] 0)) = summary body.
Proof.
  assert (H : exists body history',
             summarize false echo_summarizer false no_entities html_get_text
               py_findall "2024-01-01 00:00:00" []
               (Some (mk_request (Some sixty_words) None))
             = (Success body, history'))
    by (eexists; eexists; vm_compute; reflexivity).
  destruct H as [body [history' H]].
  destruct (summarize_success_records _ _ _ _ _ _ _ _ _ _ _
              (mk_entry 0 "" 0 "" "" [] 0) H)
    as [L [kept [_ [_ [_ [S _]]]]]].
  exists body, history'. split; [exact H|]. split; [exact L | exact S].
Defined.

(** X10.  When the call that summarises the joined chunk summaries raises,
    [/summarize] answers with the error "An error occurred: " followed by the
    reason, and records nothing. *)
Theorem summarize_reports_engine_exception
    (summarizer : string -> Z -> Z -> result string)
    (spacy : bool) (nlp_ents : string -> list entity)
    (get_text : string -> string)
    (re_findall : string -> bool -> string -> list string) (now : string)
    (history : list history_entry) (rq : request) (reason : string) :
  let cleaned := clean_text get_text (request_text rq) in
  let combined :=
    join " " (chunk_summaries summarizer (make_chunks (split cleaned) 800)) in
  is_empty (strip (request_text rq)) = false ->
  (1000 < word_count cleaned)%nat ->
  (request_max_words rq < Z.of_nat (word_count combined))%Z ->
  summarizer combined (request_max_words rq) 30%Z = Raise reason ->
  summarize true summarizer spacy nlp_ents get_text re_findall now history
    (Some rq)
  = (Failure ("An error occurred: " ++ reason)%string, history).
Proof.
  intros cleaned combined Hb Hw Hm Hr.
  apply summarize_engine_raises; [exact Hb | fold cleaned; lia|].
  fold cleaned.
  pose proof (generate_summary_long summarizer cleaned (request_max_words rq) 30 Hw)
    as E.
  cbv zeta in E. fold combined in E. rewrite E.
  apply Z.ltb_lt in Hm. rewrite Hm. exact Hr.
Qed.

(** A text of 1001 words and a pipeline that refuses more than 800. *)
Lemma summarize_reports_engine_exception_witness :
  summarize true bounded_summarizer false no_entities html_get_text py_findall
    "2024-01-01 00:00:00" full_history
    (Some (mk_request (Some (words_text 1001 "w")) None))
  = (Failure "An error occurred: input too long", full_history).
Proof.
  apply (summarize_reports_engine_exception bounded_summarizer false no_entities
           html_get_text py_findall "2024-01-01 00:00:00" full_history
           (mk_request (Some (words_text 1001 "w")) None) "input too long").
  - vm_compute. reflexivity.
  - apply Nat.ltb_lt. vm_compute. reflexivity.
  - apply Z.ltb_lt. vm_compute. reflexivity.
  - vm_compute. reflexivity.
Defined.

(** ** The normaliser *)

Lemma split_cons_space (c : ascii) (s : string) :
  isspace c = true -> split (String c s) = split s.
Proof. intros H. now rewrite split_unfold, tokens_cons, H. Qed.

Lemma tokens_split (s t : string) : tokens s = tokens t -> split s = split t.
Proof. intros H. now rewrite !split_unfold, H. Qed.

Lemma collapse_tokens (s : string) :
  tokens (collapse_from false s) = tokens s /\
  split (collapse_from true s) = split s.
Proof.
  induction s as [|c s [IH1 IH2]]; [split; reflexivity|].
  cbn [collapse_from]. destruct (isspace c) eqn:Ec.
  - split.
    + now rewrite !tokens_cons, Ec, IH2.
    + now rewrite IH2, (split_cons_space c s Ec).
  - assert (E : tokens (String c (collapse_from false s)) = tokens (String c s))
      by now rewrite !tokens_cons, Ec, IH1.
    split; [exact E | now apply tokens_split].
Qed.

Lemma lstrip_split (s : string) : split (lstrip s) = split s.
Proof.
  induction s as [|c s IH]; [reflexivity|]. cbn [lstrip].
  destruct (isspace c) eqn:Ec; [|reflexivity].
  now rewrite IH, (split_cons_space c s Ec).
Qed.

Lemma rstrip_tokens (s : string) : tokens (rstrip s) = tokens s.
Proof.
  induction s as [|c s IH]; [reflexivity|]. cbn [rstrip].
  destruct (isspace c && is_empty (rstrip s)) eqn:E.
  - apply andb_true_iff in E as [Ec Ee]. rewrite tokens_cons, Ec.
    rewrite (tokens_split _ _ (eq_sym IH)).
    destruct (rstrip s); [reflexivity | discriminate].
  - now rewrite !tokens_cons, IH, (tokens_split _ _ IH).
Qed.

Lemma normalize_ws_split (s : string) : split (strip (collapse_ws s)) = split s.
Proof.
  unfold strip, collapse_ws.
  rewrite (tokens_split _ _ (rstrip_tokens _)), lstrip_split.
  apply tokens_split, collapse_tokens.
Qed.

Lemma join_spaced (w : string) (ws : list string) :
  join " " (w :: ws) = (w ++ spaced ws)%string.
Proof.
  revert w. induction ws as [|w2 ws IH]; intros w.
  - simpl. clear. induction w as [|c w IH]; simpl; [reflexivity | now rewrite <- IH].
  - change (join " " (w :: w2 :: ws)) with (w ++ " " ++ join " " (w2 :: ws))%string.
    now rewrite IH.
Qed.

Lemma tidy_tokens (b : bool) (t : string) :
  tidy b t = true -> rstrip t = t ->
  t = (fst (tokens t) ++ spaced (snd (tokens t)))%string.
Proof.
  revert b. induction t as [|c t IH]; intros b Ht Hr; [reflexivity|].
  cbn [rstrip] in Hr.
  destruct (isspace c && is_empty (rstrip t)) eqn:E; [discriminate|].
  injection Hr as Hr. rewrite tokens_cons. cbn [tidy] in Ht.
  destruct (isspace c) eqn:Ec.
  - apply andb_true_iff in Ht as [Ht Ht'].
    apply andb_true_iff in Ht as [Hc _]. apply Ascii.eqb_eq in Hc. subst c.
    cbn [fst snd]. rewrite split_unfold.
    destruct t as [|c' t]; [rewrite <- Hr in E; discriminate|].
    assert (Ec' : isspace c' = false).
    { cbn [tidy] in Ht'. destruct (isspace c'); [|reflexivity].
      rewrite andb_false_r in Ht'. discriminate. }
    rewrite (IH true Ht' Hr) at 1.
    rewrite tokens_cons, Ec'. cbn [fst snd cons_word is_empty spaced].
    reflexivity.
  - cbn [fst snd]. rewrite (IH false Ht Hr) at 1. reflexivity.
Qed.

Lemma tidy_join_split (t : string) :
  tidy false t = true -> starts_clean t = true -> rstrip t = t ->
  join " " (split t) = t.
Proof.
  intros Ht Hs Hr. destruct t as [|c t]; [reflexivity|].
  rewrite (tidy_tokens false _ Ht Hr) at 2.
  rewrite split_unfold. cbn [starts_clean] in Hs. apply negb_true_iff in Hs.
  rewrite tokens_cons, Hs. cbn [fst snd cons_word is_empty].
  apply join_spaced.
Qed.

Lemma normalize_ws_words (s : string) :
  strip (collapse_ws s) = join " " (split s).
Proof.
  rewrite <- (normalize_ws_split s). symmetry.
  unfold strip, collapse_ws. apply tidy_join_split.
  - apply tidy_rstrip, (tidy_lstrip false), collapse_tidy.
  - apply rstrip_starts_clean, lstrip_starts_clean.
  - apply rstrip_idempotent.
Qed.

(** X11.  Normalising keeps the words of the parsed text, in order, and
    separates them by single spaces: the normalised text is those words
    joined by one space, so it has the same word count as the parsed text,
    no white space at either end and no white space other than single
    spaces. *)
Theorem clean_text_words (get_text : string -> string) (raw_html : string) :
  let words := split (get_text raw_html) in
  clean_text get_text raw_html = join " " words /\
  split (clean_text get_text raw_html) = words /\
  word_count (clean_text get_text raw_html) = word_count (get_text raw_html) /\
  Forall (fun w => is_word w = true) words /\
  tidy false (clean_text get_text raw_html) = true /\
  strip (clean_text get_text raw_html) = clean_text get_text raw_html.
Proof.
  intros words. unfold clean_text.
  split; [apply normalize_ws_words|].
  split; [apply normalize_ws_split|].
  split; [unfold word_count; now rewrite normalize_ws_split|].
  split; [apply split_words|].
  split.
  - unfold strip, collapse_ws.
    apply tidy_rstrip, (tidy_lstrip false), collapse_tidy.
  - unfold strip at 1.
    rewrite starts_clean_lstrip
      by (unfold strip; apply rstrip_starts_clean, lstrip_starts_clean).
    unfold strip. apply rstrip_idempotent.
Qed.

(** ** The upload handler *)

Section UploadProperties.

Variable DOCX_AVAILABLE : bool.
Variable decode_utf8 : string -> result string.
Variable docx_paragraphs : string -> result (list string).

Let read := read_file DOCX_AVAILABLE decode_utf8 docx_paragraphs.
Let upload_handler := upload_file DOCX_AVAILABLE decode_utf8 docx_paragraphs.

Lemma upload_file_reads (file : upload) :
  filename file <> "" ->
  upload_handler (Some file)
  = if String.prefix "Error" (read file) then UploadFailure (read file)
    else UploadSuccess (read file) (word_count (read file)).
Proof.
  intros H. unfold upload_handler, upload_file.
  apply String.eqb_neq in H. rewrite H. reflexivity.
Qed.

Lemma read_error_message (file : upload) (message : string) :
  read_error DOCX_AVAILABLE decode_utf8 docx_paragraphs file message ->
  read file = message /\ String.prefix "Error" message = true.
Proof.
  unfold read, read_file.
  intros [H1 H2 | H1 H2 H3 | reason H1 H2 | reason H1 H2 H3 H4];
    rewrite H1; try rewrite H2; try rewrite H3; try rewrite H4;
    split; reflexivity.
Qed.

End UploadProperties.

Lemma strip_split (s : string) : split (strip s) = split s.
Proof.
  unfold strip. now rewrite (tokens_split _ _ (rstrip_tokens _)), lstrip_split.
Qed.

Lemma word_count_not_blank (s : string) :
  (1 <= word_count s)%nat -> is_empty (strip s) = false.
Proof.
  intros H. unfold word_count in H. rewrite <- strip_split in H.
  destruct (strip s); [simpl in H; lia | reflexivity].
Qed.

(** X12.  Every failure of [read_file] - a format that is neither .txt nor
    .docx, a .docx when python-docx is missing, a file that cannot be decoded
    or opened - reaches the user as a failure of [/upload] carrying
    [read_file]'s message. *)
Theorem upload_reports_read_errors
    (docx : bool) (decode_utf8 : string -> result string)
    (docx_paragraphs : string -> result (list string))
    (file : upload) (message : string) :
  filename file <> "" ->
  read_error docx decode_utf8 docx_paragraphs file message ->
  upload_file docx decode_utf8 docx_paragraphs (Some file)
  = UploadFailure message.
Proof.
  intros Hn He. rewrite upload_file_reads by assumption.
  destruct (read_error_message _ _ _ _ _ He) as [-> ->]. reflexivity.
Qed.

(** A PDF, and a text file that cannot be decoded. *)
Lemma upload_reports_read_errors_witness :
  upload_file true latin1_decode no_paragraphs (Some pdf_upload)
  = UploadFailure "Error: Unsupported file format. Please use .txt or .docx files."
  /\
  upload_file true failing_decode no_paragraphs (Some notes_upload)
  = UploadFailure "Error reading file: 'utf-8' codec can't decode byte".
Proof.
  split.
  - apply upload_reports_read_errors; [discriminate|].
    apply unsupported_format; reflexivity.
  - apply upload_reports_read_errors; [discriminate|].
    apply (text_undecodable _ _ _ _ "'utf-8' codec can't decode byte");
      reflexivity.
Defined.

Lemma endswith_nonempty (suffix s : string) :
  suffix <> "" -> endswith suffix s = true -> s <> "".
Proof.
  intros Hs H ->. unfold endswith in H. destruct suffix; [now elim Hs|].
  discriminate.
Qed.

(** X13.  [/upload] tells a failed read from a read text by the first five
    characters alone: a text file that decodes without error but whose text
    begins with "Error" is answered as a failure, with the text of the file
    as the error message. *)
Theorem upload_rejects_text_starting_with_error
    (docx : bool) (decode_utf8 : string -> result string)
    (docx_paragraphs : string -> result (list string))
    (file : upload) (content : string) :
  endswith ".txt" (filename file) = true ->
  decode_utf8 (file_bytes file) = Ok content ->
  String.prefix "Error" content = true ->
  upload_file docx decode_utf8 docx_paragraphs (Some file)
  = UploadFailure content.
Proof.
  intros Ht Hd Hp.
  rewrite upload_file_reads by (eapply endswith_nonempty; [|exact Ht]; discriminate).
  unfold read_file. rewrite Ht, Hd, Hp. reflexivity.
Qed.

(** The log of an experiment. *)
Lemma upload_rejects_text_starting_with_error_witness :
  upload_file true latin1_decode no_paragraphs (Some log_upload)
  = UploadFailure "Error rates fell by half between 2023 and 2024.".
Proof.
  apply upload_rejects_text_starting_with_error; reflexivity.
Defined.

(** X14.  A success of [/upload] always carries text of the file - the
    decoded text of a .txt file, or the paragraphs of a .docx file joined by
    newlines - never one of [read_file]'s messages, together with the number
    of its words; the text may be empty. *)
Theorem upload_success_content
    (docx : bool) (decode_utf8 : string -> result string)
    (docx_paragraphs : string -> result (list string))
    (files : option upload) (content : string) (n : nat) :
  upload_file docx decode_utf8 docx_paragraphs files = UploadSuccess content n ->
  exists file,
    files = Some file /\ filename file <> "" /\
    n = word_count content /\ String.prefix "Error" content = false /\
    ((endswith ".txt" (filename file) = true /\
      decode_utf8 (file_bytes file) = Ok content) \/
     (endswith ".txt" (filename file) = false /\
      endswith ".docx" (filename file) = true /\ docx = true /\
      exists paragraphs,
        docx_paragraphs (file_bytes file) = Ok paragraphs /\
        content = join newline paragraphs)).
Proof.
  unfold upload_file. destruct files as [file|]; [|discriminate].
  destruct (String.eqb (filename file) "") eqn:En; [discriminate|].
  apply String.eqb_neq in En.
  destruct (String.prefix "Error" (read_file _ _ _ file)) eqn:Ep; [discriminate|].
  intros H. injection H as Hc Hn. exists file.
  split; [reflexivity|]. split; [exact En|]. split; [now subst|].
  split; [now rewrite <- Hc|].
  unfold read_file in Hc, Ep.
  destruct (endswith ".txt" (filename file)).
  - left. split; [reflexivity|].
    destruct (decode_utf8 (file_bytes file)); [now subst | discriminate].
  - right. split; [reflexivity|].
    destruct (endswith ".docx" (filename file)); [|discriminate].
    split; [reflexivity|].
    destruct docx; [|discriminate]. split; [reflexivity|]. cbn [negb] in *.
    destruct (docx_paragraphs (file_bytes file)) as [ps|]; [|discriminate].
    exists ps. split; [reflexivity | now subst].
Qed.

(** Three words in a text file. *)
Lemma upload_success_content_witness :
  exists file,
    Some notes_upload = Some file /\
    endswith ".txt" (filename file) = true /\
    latin1_decode (file_bytes file) = Ok "Three short words".
Proof.
  destruct (upload_success_content true latin1_decode no_paragraphs
              (Some notes_upload) "Three short words" 3 eq_refl)
    as [file [E [_ [_ [_ [[Ht Hd] | [Ht _]]]]]]].
  - exists file. repeat split; assumption.
  - injection E as <-. discriminate Ht.
Defined.

(** X15.  For an uploaded text that the markup parser leaves unchanged, the
    word count [/upload] shows is the one [/summarize] gates on: the text is
    turned down as missing or too short exactly when [/upload] counted fewer
    than 20 words. *)
Theorem upload_count_gates_summary
    (docx : bool) (decode_utf8 : string -> result string)
    (docx_paragraphs : string -> result (list string))
    (avail : bool) (summarizer : string -> Z -> Z -> result string)
    (spacy : bool) (nlp_ents : string -> list entity)
    (get_text : string -> string)
    (re_findall : string -> bool -> string -> list string) (now : string)
    (history : list history_entry)
    (files : option upload) (content : string) (n : nat)
    (max_words : option Z) :
  upload_file docx decode_utf8 docx_paragraphs files = UploadSuccess content n ->
  get_text content = content ->
  ((n < 20)%nat <->
   exists e,
     fst (summarize avail summarizer spacy nlp_ents get_text re_findall now
            history (Some (mk_request (Some content) max_words)))
     = Failure e /\
     (e = "Please provide text to summarize" \/
      e = "Text is too short. Please provide at least 20 words.")).
Proof.
  intros Hu Hg.
  assert (Hn : n = word_count content).
  { unfold upload_file in Hu. destruct files as [file|]; [|discriminate].
    destruct (String.eqb (filename file) ""); [discriminate|].
    destruct (String.prefix "Error" _); [discriminate|].
    now injection Hu as <- <-. }
  assert (Hw : word_count (clean_text get_text content) = n).
  { unfold clean_text, word_count. now rewrite normalize_ws_split, Hg, Hn. }
  split.
  - intros Hlt.
    pose proof (summarize_rejects_short avail summarizer spacy nlp_ents get_text
                  re_findall now history (mk_request (Some content) max_words))
      as E.
    cbn [request_text req_text] in E. rewrite E by lia. cbn [fst].
    eexists. split; [reflexivity|]. destruct (is_empty _); auto.
  - intros [e [He Hcases]].
    destruct (Nat.lt_ge_cases n 20) as [Hlt|Hge]; [exact Hlt|exfalso].
    unfold summarize in He. cbn [request_text req_text] in He.
    rewrite word_count_not_blank in He by lia.
    rewrite Hw in He. apply Nat.ltb_ge in Hge. rewrite Hge in He.
    destruct (fst (run (generate_summary _ _ _ _ _))) as [s|r];
      cbn [fst] in He; [discriminate|].
    injection He as <-. destruct Hcases as [H|H]; discriminate H.
Qed.

(** Three words uploaded, then submitted. *)
Lemma upload_count_gates_summary_witness :
  exists e,
    fst (summarize false echo_summarizer false no_entities html_get_text
           py_findall "2024-01-01 00:00:00" []
           (Some (mk_request (Some "Three short words") None)))
    = Failure e /\
    (e = "Please provide text to summarize" \/
     e = "Text is too short. Please provide at least 20 words.").
Proof.
  apply (upload_count_gates_summary true latin1_decode no_paragraphs
           false echo_summarizer false no_entities html_get_text py_findall
           "2024-01-01 00:00:00" [] (Some notes_upload) "Three short words" 3 None
           eq_refl eq_refl).
  vm_compute. lia.
Defined.

(** ** The entities of the spaCy branch *)

Lemma subseq_refl {A} (l : list A) : subseq l l.
Proof. induction l; constructor; assumption. Qed.

Lemma subseq_firstn {A} (n : nat) (l1 l2 : list A) :
  subseq l1 l2 -> subseq (firstn n l1) l2.
Proof.
  intros H. revert n. induction H as [l | x l1 l2 H IH | x l1 l2 H IH]; intros n.
  - rewrite firstn_nil. constructor.
  - destruct n; [constructor | cbn [firstn]; constructor; apply IH].
  - constructor. apply IH.
Qed.

Lemma subseq_length {A} (l1 l2 : list A) :
  subseq l1 l2 -> (List.length l1 <= List.length l2)%nat.
Proof. induction 1; simpl; lia. Qed.

Lemma seen_spec (t : string) (seen : list string) :
  existsb (String.eqb t) seen = true <-> In t seen.
Proof.
  rewrite existsb_exists. split.
  - intros [x [Hin Hx]]. apply String.eqb_eq in Hx. now subst.
  - intros H. exists t. split; [exact H | apply String.eqb_refl].
Qed.

Lemma dedup_ents_subseq (ents : list entity) (seen : list string) :
  subseq (dedup_ents ents seen) ents.
Proof.
  revert seen. induction ents as [|[t l] ents IH]; intros seen; simpl.
  - constructor.
  - destruct (negb _ && _); constructor; apply IH.
Qed.

Lemma dedup_ents_kept (ents : list entity) (seen : list string) :
  Forall (fun e => ~ In (fst e) seen /\ (1 < String.length (strip (fst e)))%nat)
         (dedup_ents ents seen).
Proof.
  revert seen. induction ents as [|[t l] ents IH]; intros seen; simpl.
  - constructor.
  - destruct (negb (existsb (String.eqb t) seen)
              && (1 <? String.length (strip t))%nat) eqn:E; [|apply IH].
    apply andb_true_iff in E as [E1 E2]. apply negb_true_iff in E1.
    apply Nat.ltb_lt in E2.
    assert (Hn : ~ In t seen).
    { intros Hin. apply seen_spec in Hin. congruence. }
    constructor; [split; assumption|].
    eapply Forall_impl; [|apply (IH (t :: seen))].
    intros e [H1 H2]. split; [|exact H2]. intros Hin. apply H1. now right.
Qed.

Lemma dedup_ents_nodup (ents : list entity) (seen : list string) :
  NoDup (map fst (dedup_ents ents seen)).
Proof.
  revert seen. induction ents as [|[t l] ents IH]; intros seen; simpl.
  - constructor.
  - destruct (negb _ && _); [|apply IH].
    cbn [map fst]. constructor; [|apply IH].
    intros Hin. apply in_map_iff in Hin as [e [He Hin]].
    pose proof (proj1 (Forall_forall _ _) (dedup_ents_kept ents (t :: seen)) e Hin)
      as [H _].
    apply H. left. now rewrite He.
Qed.

Lemma dedup_ents_first (before after : list entity) (t l : string)
    (seen : list string) :
  ~ In t (map fst before) -> ~ In t seen ->
  (1 < String.length (strip t))%nat ->
  In (t, l) (dedup_ents (before ++ (t, l) :: after) seen).
Proof.
  revert seen. induction before as [|[t' l'] before IH]; intros seen Hb Hs Hl.
  - cbn [app dedup_ents].
    assert (E : existsb (String.eqb t) seen = false).
    { destruct (existsb (String.eqb t) seen) eqn:E; [|reflexivity].
      apply seen_spec in E. contradiction. }
    apply Nat.ltb_lt in Hl. rewrite E, Hl. now left.
  - cbn [app dedup_ents]. cbn [map fst] in Hb.
    assert (Hne : t' <> t) by (intros ->; apply Hb; now left).
    assert (Hb' : ~ In t (map fst before)) by (intros H; apply Hb; now right).
    destruct (negb _ && _).
    + right. apply IH; try assumption. intros [H|H]; [now apply Hne | now apply Hs].
    + now apply IH.
Qed.

(** X16.  With spaCy the extractor returns at most 20 entities, taken from
    the model's entities in their order; no text appears twice, and every
    text has more than one character once stripped.  When the model finds at
    most 20 entities, the first occurrence of each such text is returned,
    with the label of that occurrence. *)
Theorem spacy_entities_distinct
    (nlp_ents : string -> list entity)
    (re_findall : string -> bool -> string -> list string) (text : string) :
  let found := nlp_ents text in
  let result := extract_entities true nlp_ents re_findall text in
  (List.length result <= 20)%nat /\
  subseq result found /\
  NoDup (map fst result) /\
  Forall (fun e => (1 < String.length (strip (fst e)))%nat) result /\
  ((List.length found <= 20)%nat ->
   forall before t l after,
     found = (before ++ (t, l) :: after)%list ->
     ~ In t (map fst before) ->
     (1 < String.length (strip t))%nat ->
     In (t, l) result).
Proof.
  intros found result.
  assert (E : result = firstn 20 (dedup_ents found [])) by reflexivity.
  assert (Hsub : subseq (dedup_ents found []) found) by apply dedup_ents_subseq.
  split; [rewrite E; apply firstn_le_length|].
  split; [rewrite E; now apply subseq_firstn|].
  split.
  { rewrite E, <- firstn_map. apply NoDup_firstn, dedup_ents_nodup. }
  split.
  { rewrite E. apply Forall_forall. intros e He.
    assert (Hin : In e (dedup_ents found [])).
    { rewrite <- (firstn_skipn 20 (dedup_ents found [])).
      apply in_or_app. now left. }
    exact (proj2 (proj1 (Forall_forall _ _) (dedup_ents_kept found []) e Hin)). }
  intros Hlen before t l after Hf Hb Hl.
  rewrite E, firstn_all2 by (apply subseq_length in Hsub; lia).
  rewrite Hf. apply dedup_ents_first; [assumption | intros [] | assumption].
Qed.

(** Four entities found, two returned. *)
Lemma spacy_entities_distinct_witness :
  In ("Paris", "GPE") (extract_entities true sample_ents py_findall "any text") /\
  In ("IBM", "ORG") (extract_entities true sample_ents py_findall "any text").
Proof.
  destruct (spacy_entities_distinct sample_ents py_findall "any text")
    as [_ [_ [_ [_ H]]]].
  assert (L : (List.length (sample_ents "any text") <= 20)%nat)
    by (vm_compute; lia).
  split.
  - apply (H L [] "Paris" "GPE"
             [("x", "ORG"); ("Paris", "ORG"); ("IBM", "ORG")]).
    + reflexivity.
    + intros [].
    + vm_compute. lia.
  - apply (H L [("Paris", "GPE"); ("x", "ORG"); ("Paris", "ORG")] "IBM" "ORG" []).
    + reflexivity.
    + cbn. intros [H1|[H1|[H1|[]]]]; discriminate H1.
    + vm_compute. lia.
Defined.

(** ** The word frequencies of the fallback summariser *)

Lemma dict_get_set (d : dict) (k k' : string) (v default : Z) :
  dict_get (dict_set d k v) k' default
  = if String.eqb k k' then v else dict_get d k' default.
Proof.
  induction d as [|[k0 v0] d IH]; simpl.
  - reflexivity.
  - destruct (String.eqb k0 k) eqn:E0; simpl.
    + apply String.eqb_eq in E0. subst k0.
      destruct (String.eqb k k'); reflexivity.
    + destruct (String.eqb k0 k') eqn:E1; [|exact IH].
      apply String.eqb_eq in E1. subst k0. now rewrite String.eqb_sym, E0.
Qed.

Lemma dict_mem_set (d : dict) (k k' : string) (v : Z) :
  dict_mem (dict_set d k v) k' = String.eqb k k' || dict_mem d k'.
Proof.
  induction d as [|[k0 v0] d IH]; simpl.
  - now rewrite orb_false_r.
  - destruct (String.eqb k0 k) eqn:E0; simpl.
    + apply String.eqb_eq in E0. subst k0.
      destruct (String.eqb k k'); reflexivity.
    + rewrite IH. destruct (String.eqb k0 k'), (String.eqb k k'); reflexivity.
Qed.

Lemma count_words_fold (words : list string) (d : dict) (w : string) :
  let step :=
    fun (word_freq : dict) (word : string) =>
      if (3 <? String.length word)%nat
      then dict_set word_freq word (dict_get word_freq word 0 + 1)
      else word_freq in
  dict_get (fold_left step words d) w 0
  = (dict_get d w 0
     + if (3 <? String.length w)%nat
       then Z.of_nat (count_occ string_dec words w) else 0)%Z /\
  dict_mem (fold_left step words d) w
  = dict_mem d w
    || ((3 <? String.length w)%nat && (0 <? count_occ string_dec words w)%nat).
Proof.
  intros step. revert d. induction words as [|x words IH]; intros d.
  - cbn [fold_left count_occ]. split.
    + destruct (3 <? String.length w)%nat; lia.
    + destruct (3 <? String.length w)%nat; cbn; now rewrite orb_false_r.
  - cbn [fold_left count_occ]. destruct (IH (step d x)) as [IH1 IH2].
    rewrite IH1, IH2. clear IH IH1 IH2.
    assert (G : dict_get (step d x) w 0
                = (dict_get d w 0
                   + if (3 <? String.length w)%nat && String.eqb x w
                     then 1 else 0)%Z /\
                dict_mem (step d x) w
                = dict_mem d w || ((3 <? String.length w)%nat && String.eqb x w)).
    { unfold step. destruct (String.eqb x w) eqn:E.
      - apply String.eqb_eq in E. subst x.
        destruct (3 <? String.length w)%nat.
        + rewrite dict_get_set, dict_mem_set, String.eqb_refl. cbn.
          rewrite orb_true_r. split; reflexivity.
        + cbn. rewrite orb_false_r. split; [lia | reflexivity].
      - rewrite andb_false_r, orb_false_r.
        destruct (3 <? String.length x)%nat.
        + rewrite dict_get_set, dict_mem_set, E. split; [lia | reflexivity].
        + split; [lia | reflexivity]. }
    destruct G as [G1 G2]. rewrite G1, G2.
    destruct (string_dec x w) as [->|Hne].
    + rewrite String.eqb_refl. destruct (3 <? String.length w)%nat; cbn.
      * rewrite orb_true_r. split; [lia | reflexivity].
      * rewrite !orb_false_r. split; [lia | reflexivity].
    + apply String.eqb_neq in Hne. rewrite Hne, andb_false_r, orb_false_r.
      split; [lia | reflexivity].
Qed.

(** X17.  The frequency table of the fallback summariser holds exactly the
    lower-cased words of the text that have more than 3 characters, each
    with its number of occurrences; a word of 3 characters or fewer is never
    in it. *)
Theorem word_freq_counts (text : string) (w : string) :
  let words := split (lower text) in
  let word_freq := count_words words in
  dict_get word_freq w 0
  = (if (3 <? String.length w)%nat
     then Z.of_nat (count_occ string_dec words w) else 0%Z) /\
  (dict_mem word_freq w = true <->
   (3 < String.length w)%nat /\ In w words).
Proof.
  intros words word_freq.
  destruct (count_words_fold words [] w) as [H1 H2]. cbv zeta in H1, H2.
  split; [exact H1|].
  unfold word_freq, count_words. rewrite H2. cbn [dict_mem orb].
  rewrite andb_true_iff, Nat.ltb_lt, Nat.ltb_lt.
  pose proof (count_occ_In string_dec words w) as C. unfold gt in C.
  now rewrite C.
Qed.

(** ** Binary64 arithmetic on numbers that are not negative *)

Lemma shr_1_nonneg (mrs : shr_record) :
  (0 <= shr_m mrs)%Z -> (0 <= shr_m (shr_1 mrs))%Z.
Proof.
  destruct mrs as [m r s]. cbn [shr_m]. intros H.
  destruct m as [|p|p]; [| |lia]; cbn; [lia|].
  destruct p; cbn; lia.
Qed.

Lemma iter_shr_1_nonneg (p : positive) (mrs : shr_record) :
  (0 <= shr_m mrs)%Z -> (0 <= shr_m (iter_pos shr_1 p mrs))%Z.
Proof.
  revert mrs. induction p as [p IH|p IH|]; intros mrs H; cbn [iter_pos].
  - apply IH, IH, shr_1_nonneg, H.
  - apply IH, IH, H.
  - apply shr_1_nonneg, H.
Qed.

Lemma shr_fexp_nonneg (m e : Z) (l : location) :
  (0 <= m)%Z -> (0 <= shr_m (fst (shr_fexp prec emax m e l)))%Z.
Proof.
  intros H. unfold shr_fexp, shr.
  assert (H0 : (0 <= shr_m (shr_record_of_loc m l))%Z)
    by (destruct l as [|[]]; exact H).
  destruct (_ - e)%Z; cbn [fst]; [exact H0 | | exact H0].
  now apply iter_shr_1_nonneg.
Qed.

Lemma round_nearest_even_nonneg (m : Z) (l : location) :
  (0 <= m)%Z -> (0 <= round_nearest_even m l)%Z.
Proof.
  intros H. destruct l as [|[]]; cbn; try lia. destruct (Z.even m); lia.
Qed.

Lemma binary_round_aux_nonneg (m e : Z) (l : location) :
  (0 <= m)%Z -> sf_nonneg (binary_round_aux prec emax false m e l).
Proof.
  intros H. unfold binary_round_aux.
  pose proof (shr_fexp_nonneg m e l H) as H1.
  destruct (shr_fexp prec emax m e l) as [mrs' e']. cbn [fst] in H1.
  pose proof (shr_fexp_nonneg
                (round_nearest_even (shr_m mrs') (loc_of_shr_record mrs')) e'
                loc_Exact (round_nearest_even_nonneg _ _ H1)) as H2.
  destruct (shr_fexp prec emax _ e' loc_Exact) as [mrs'' e'']. cbn [fst] in H2.
  destruct (shr_m mrs'') as [|p|p]; [exact I | | lia].
  destruct (e'' <=? emax - prec)%Z; reflexivity.
Qed.

Lemma binary_round_nonneg (m : positive) (e : Z) :
  sf_nonneg (binary_round prec emax false m e).
Proof.
  unfold binary_round. destruct (shl_align m e _) as [mz ez].
  apply binary_round_aux_nonneg. lia.
Qed.

Lemma binary_normalize_nonneg (m e : Z) :
  (0 <= m)%Z -> sf_nonneg (binary_normalize prec emax m e false).
Proof.
  intros H. destruct m as [|p|p]; [exact I | apply binary_round_nonneg | lia].
Qed.

Lemma SFadd_nonneg (x y : spec_float) :
  sf_nonneg x -> sf_nonneg y -> sf_nonneg (SFadd prec emax x y).
Proof.
  destruct x as [sx|sx| |sx mx ex], y as [sy|sy| |sy my ey]; cbn [sf_nonneg];
    intros Hx Hy; subst; try contradiction; try exact I; try reflexivity.
  - destruct sx, sy; exact I.
  - cbn [SFadd cond_Zopp]. apply binary_normalize_nonneg. lia.
Qed.

Lemma SFmul_nonneg (x y : spec_float) :
  sf_nonneg x -> (exists m e, y = S754_finite false m e) ->
  sf_nonneg (SFmul prec emax x y).
Proof.
  intros Hx [m [e ->]].
  destruct x as [sx|sx| |sx mx ex]; cbn [sf_nonneg] in Hx; subst;
    try contradiction; cbn [SFmul xorb sf_nonneg]; try easy.
  apply binary_round_aux_nonneg. lia.
Qed.

Lemma SFdiv_nonneg (a b : Z) :
  (0 <= a)%Z -> (0 < b)%Z ->
  sf_nonneg (SFdiv prec emax (exact_int a) (exact_int b)).
Proof.
  intros Ha Hb. destruct b as [|q|q]; try lia.
  destruct a as [|p|p]; try lia; cbn [exact_int SFdiv xorb]; [exact I|].
  unfold SFdiv_core_binary.
  set (m' := match _ with Z0 => _ | Zpos _ => _ | Zneg _ => _ end).
  assert (Hm : (0 <= m')%Z).
  { unfold m'. destruct (_ - _ - _)%Z; try lia. apply Z.shiftl_nonneg. lia. }
  pose proof (Z_div_mod m' (Zpos q) ltac:(lia)) as D.
  destruct (Z.div_eucl m' (Zpos q)) as [quo r].
  apply binary_round_aux_nonneg. nia.
Qed.

Lemma SF2Prim_nonneg (x : spec_float) : sf_nonneg x -> nonneg (SF2Prim x).
Proof.
  unfold nonneg. destruct x as [s|s| |s m e]; cbn [sf_nonneg]; intros H;
    subst; try contradiction.
  - destruct s; vm_compute; exact I.
  - vm_compute. reflexivity.
  - cbn [SF2Prim]. unfold Z.ldexp. rewrite ldshiftexp_spec.
    pose proof (of_uint63_spec (Uint63.of_Z (Zpos m))) as S.
    pose proof (Uint63.to_Z_bounded (Uint63.of_Z (Zpos m))) as B.
    assert (N : sf_nonneg (Prim2SF (of_uint63 (Uint63.of_Z (Zpos m)))))
      by (rewrite S; apply binary_normalize_nonneg; lia).
    destruct (Prim2SF (of_uint63 (Uint63.of_Z (Zpos m)))) as [s'|s'| |s' m' e'];
      cbn [sf_nonneg SFldexp] in *; subst; try easy.
    apply binary_round_nonneg.
Qed.

Lemma float_of_int_nonneg (n : Z) : (0 <= n)%Z -> nonneg (float_of_int n).
Proof. intros H. apply SF2Prim_nonneg, binary_normalize_nonneg, H. Qed.

Lemma int_truediv_nonneg (a b : Z) :
  (0 <= a)%Z -> (0 < b)%Z -> nonneg (int_truediv a b).
Proof. intros Ha Hb. apply SF2Prim_nonneg, SFdiv_nonneg; assumption. Qed.

Lemma add_nonneg (x y : float) : nonneg x -> nonneg y -> nonneg (x + y).
Proof. unfold nonneg. rewrite add_spec. apply SFadd_nonneg. Qed.

Lemma mul_nonneg_03 (x : float) : nonneg x -> nonneg (x * 0.3).
Proof.
  unfold nonneg. rewrite mul_spec. intros H. apply SFmul_nonneg; [exact H|].
  eexists. eexists. vm_compute. reflexivity.
Qed.

Lemma nonneg_not_nan (x : float) : nonneg x -> Prim2SF x <> S754_nan.
Proof. unfold nonneg. intros H E. now rewrite E in H. Qed.

(** ** The order of binary64 numbers *)

Lemma SFltb_asym (x y : spec_float) :
  SFltb x y = true -> SFltb y x = false.
Proof.
  unfold SFltb.
  destruct x as [sx|sx| |sx mx ex], y as [sy|sy| |sy my ey]; cbn [SFcompare];
    try destruct sx; try destruct sy; try discriminate; try reflexivity.
  - rewrite (Z.compare_antisym ex ey).
    change (Pos.compare_cont Eq my mx) with (Pos.compare my mx).
    change (Pos.compare_cont Eq mx my) with (Pos.compare mx my).
    rewrite (Pos.compare_antisym mx my).
    destruct (ex ?= ey)%Z; cbn; try discriminate; try reflexivity.
    destruct (mx ?= my)%positive; cbn; try discriminate; reflexivity.
  - rewrite (Z.compare_antisym ex ey).
    change (Pos.compare_cont Eq my mx) with (Pos.compare my mx).
    change (Pos.compare_cont Eq mx my) with (Pos.compare mx my).
    rewrite (Pos.compare_antisym mx my).
    destruct (ex ?= ey)%Z; cbn; try discriminate; try reflexivity.
    destruct (mx ?= my)%positive; cbn; try discriminate; reflexivity.
Qed.

Lemma SFltb_finite (s : bool) (m1 m2 : positive) (e1 e2 : Z) :
  SFltb (S754_finite s m1 e1) (S754_finite s m2 e2) = true <->
  if s then (e2 < e1 \/ (e1 = e2 /\ Zpos m2 < Zpos m1))%Z
  else (e1 < e2 \/ (e1 = e2 /\ Zpos m1 < Zpos m2))%Z.
Proof.
  unfold SFltb. cbn [SFcompare].
  change (Pos.compare_cont Eq m1 m2) with (Pos.compare m1 m2).
  destruct s; destruct (Z.compare_spec e1 e2); destruct (Pos.compare_spec m1 m2);
    cbn; split; intros G; try discriminate; try reflexivity; try lia.
Qed.

Lemma SFltb_negtrans (x y z : spec_float) :
  y <> S754_nan ->
  SFltb x y = false -> SFltb y z = false -> SFltb x z = false.
Proof.
  intros Hy Hxy Hyz.
  destruct (SFltb x z) eqn:Hxz; [exfalso | reflexivity].
  destruct x as [sx|sx| |sx mx ex], y as [sy|sy| |sy my ey],
           z as [sz|sz| |sz mz ez];
    try (now elim Hy);
    try (unfold SFltb in *; cbn [SFcompare] in *;
         try destruct sx; try destruct sy; try destruct sz; discriminate).
  destruct sx, sy, sz;
    try (unfold SFltb in *; cbn [SFcompare] in *; discriminate).
  - apply SFltb_finite in Hxz.
    assert (Hxy' : ~ (ey < ex \/ (ex = ey /\ Zpos my < Zpos mx))%Z)
      by (intros H; apply (SFltb_finite true) in H; congruence).
    assert (Hyz' : ~ (ez < ey \/ (ey = ez /\ Zpos mz < Zpos my))%Z)
      by (intros H; apply (SFltb_finite true) in H; congruence).
    lia.
  - apply SFltb_finite in Hxz.
    assert (Hxy' : ~ (ex < ey \/ (ex = ey /\ Zpos mx < Zpos my))%Z)
      by (intros H; apply (SFltb_finite false) in H; congruence).
    assert (Hyz' : ~ (ey < ez \/ (ey = ez /\ Zpos my < Zpos mz))%Z)
      by (intros H; apply (SFltb_finite false) in H; congruence).
    lia.
Qed.

Lemma ltb_asym (x y : float) :
  PrimFloat.ltb x y = true -> PrimFloat.ltb y x = false.
Proof. rewrite !ltb_spec. apply SFltb_asym. Qed.

Lemma ltb_negtrans (x y z : float) :
  nonneg y ->
  PrimFloat.ltb x y = false -> PrimFloat.ltb y z = false ->
  PrimFloat.ltb x z = false.
Proof.
  rewrite !ltb_spec. intros Hy. apply SFltb_negtrans.
  now apply nonneg_not_nan.
Qed.

(** ** The ranking of the sentences *)

Section Ranking.

Variable key : nat -> float.

Lemma insert_desc_ranked (x : nat) (l : list nat) :
  nonneg (key x) -> Forall (fun y => nonneg (key y)) l ->
  Forall (fun y => (x < y)%nat) l ->
  StronglySorted (ranked_before key) l ->
  StronglySorted (ranked_before key) (insert_desc key x l).
Proof.
  intros Hx Hn Hlt Hs. induction Hs as [|y l Hs IH Hy]; cbn [insert_desc].
  - repeat constructor.
  - inversion Hn as [|? ? Hny Hnl]; subst.
    inversion Hlt as [|? ? Hxy Hxl]; subst.
    destruct (PrimFloat.ltb (key x) (key y)) eqn:E.
    + constructor; [now apply IH|].
      eapply Permutation_Forall;
        [apply Permutation_sym, insert_desc_perm|].
      constructor; [|exact Hy].
      split; [now apply ltb_asym | intros _; exact E].
    + constructor; [now constructor|].
      constructor; [split; [exact E | intros; exfalso; lia]|].
      apply Forall_forall. intros z Hz.
      pose proof (proj1 (Forall_forall _ _) Hy z Hz) as [Hyz _].
      pose proof (proj1 (Forall_forall _ _) Hxl z Hz) as Hxz. cbv beta in Hxz.
      split; [now apply (ltb_negtrans _ (key y)) | intros; exfalso; lia].
Qed.

Lemma sorted_reverse_ranked (l : list nat) :
  Forall (fun y => nonneg (key y)) l ->
  StronglySorted lt l ->
  StronglySorted (ranked_before key) (sorted_reverse key l).
Proof.
  intros Hn Hs. induction Hs as [|x l Hs IH Hx]; cbn; [constructor|].
  inversion Hn as [|? ? Hnx Hnl]; subst.
  apply insert_desc_ranked; try assumption.
  - eapply Permutation_Forall;
      [apply Permutation_sym, sorted_reverse_perm | exact Hnl].
  - eapply Permutation_Forall;
      [apply Permutation_sym, sorted_reverse_perm | exact Hx].
  - now apply IH.
Qed.

Lemma sorted_split_ranked (n : nat) (l : list nat) (a b : nat) :
  StronglySorted (ranked_before key) l ->
  In a (firstn n l) -> In b (skipn n l) -> ranked_before key a b.
Proof.
  revert n. induction l as [|x l IH]; intros n Hs Ha Hb.
  - rewrite firstn_nil in Ha. contradiction.
  - inversion Hs as [|? ? Hs' Hx]; subst.
    destruct n as [|n]; [contradiction|]. cbn [firstn skipn] in Ha, Hb.
    destruct Ha as [<-|Ha].
    + apply (proj1 (Forall_forall _ _) Hx).
      rewrite <- (firstn_skipn n l). apply in_or_app. now right.
    + now apply (IH n).
Qed.

End Ranking.

(** ** The scores of the fallback summariser *)

Lemma count_words_nonneg (words : list string) (w : string) :
  (0 <= dict_get (count_words words) w 0)%Z.
Proof.
  destruct (count_words_fold words [] w) as [H _]. cbv zeta in H.
  unfold count_words. rewrite H. cbn [dict_get].
  destruct (3 <? String.length w)%nat; lia.
Qed.

Lemma sentence_score_nonneg (n : nat) (word_freq : dict) (i : nat)
    (sentence : string) :
  (i < n)%nat -> (forall w, (0 <= dict_get word_freq w 0)%Z) ->
  nonneg (sentence_score n word_freq i sentence).
Proof.
  intros Hi Hf. unfold sentence_score.
  set (start := (0 + int_truediv (Z.of_nat (n - i)) (Z.of_nat n) * 0.3)%float).
  assert (Hs : nonneg start).
  { apply add_nonneg; [vm_compute; exact I|].
    apply mul_nonneg_03, int_truediv_nonneg; lia. }
  set (step := fun (score : float) (word : string) => _).
  assert (Hfold : forall words score,
             nonneg score -> nonneg (fold_left step words score)).
  { induction words as [|w words IH]; intros score Hsc; [exact Hsc|].
    cbn [fold_left]. apply IH. unfold step.
    destruct (dict_mem word_freq w); [|exact Hsc].
    apply add_nonneg; [exact Hsc | apply float_of_int_nonneg, Hf]. }
  destruct (_ && _)%nat.
  - apply add_nonneg; [now apply Hfold | vm_compute; reflexivity].
  - now apply Hfold.
Qed.

Lemma sentence_scores_nonneg (text : string) (i : nat) :
  (i < List.length (split_on ". " text))%nat ->
  nonneg (nth i (sentence_scores text) 0%float).
Proof.
  intros Hi. unfold sentence_scores.
  set (n := List.length (split_on ". " text)) in *.
  set (f := fun i => sentence_score n _ i _).
  rewrite (nth_indep _ 0%float (f 0%nat)) by now rewrite length_map, length_seq.
  rewrite (map_nth f), seq_nth by assumption.
  apply sentence_score_nonneg; [exact Hi | intros w; apply count_words_nonneg].
Qed.

Lemma seq_increasing (start len : nat) : StronglySorted lt (seq start len).
Proof.
  revert start. induction len as [|len IH]; intros start; cbn [seq];
    constructor; [apply IH|].
  apply Forall_forall. intros x Hx. apply in_seq in Hx. lia.
Qed.

Lemma top_sentences_ranked (text : string) (i j : nat) :
  In i (top_sentences text) ->
  (j < List.length (split_on ". " text))%nat ->
  ~ In j (top_sentences text) ->
  ranked_before (fun x => nth x (sentence_scores text) 0%float) i j.
Proof.
  unfold top_sentences. rewrite sentence_scores_length.
  set (key := fun x => nth x (sentence_scores text) 0%float).
  set (n := List.length (split_on ". " text)).
  set (ranking := sorted_reverse key (seq 0 n)).
  set (t := target_sentences n).
  intros Hi Hj Hnj.
  assert (Hi' : In i (firstn t ranking))
    by (eapply Permutation_in; [apply sort_perm | exact Hi]).
  assert (Hj' : In j (skipn t ranking)).
  { assert (Hin : In j ranking).
    { eapply Permutation_in; [apply Permutation_sym, sorted_reverse_perm|].
      apply in_seq. lia. }
    rewrite <- (firstn_skipn t ranking) in Hin.
    apply in_app_or in Hin as [Hin|Hin]; [|exact Hin].
    elim Hnj. eapply Permutation_in; [apply Permutation_sym, sort_perm | exact Hin]. }
  apply (sorted_split_ranked key t ranking); try assumption.
  apply sorted_reverse_ranked; [|apply seq_increasing].
  apply Forall_forall. intros x Hx. apply in_seq in Hx.
  apply sentence_scores_nonneg. fold n. lia.
Qed.

(** X18.  The fallback summariser selects the sentences of highest score: no
    sentence left out has a score higher than that of a selected sentence,
    and a sentence left out that comes before a selected one has a strictly
    lower score (of two sentences with the same score the earlier one is
    preferred). *)
Theorem top_sentences_highest_scores (text : string) (i j : nat) :
  let scores := sentence_scores text in
  In i (top_sentences text) ->
  (j < List.length (split_on ". " text))%nat ->
  ~ In j (top_sentences text) ->
  PrimFloat.ltb (nth i scores 0%float) (nth j scores 0%float) = false /\
  ((j < i)%nat ->
   PrimFloat.ltb (nth j scores 0%float) (nth i scores 0%float) = true).
Proof.
  intros scores Hi Hj Hnj. exact (top_sentences_ranked text i j Hi Hj Hnj).
Qed.

(** In [sixty_words] the second sentence is selected and the first is not:
    the first scores less. *)
Lemma top_sentences_highest_scores_witness :
  PrimFloat.ltb (nth 0 (sentence_scores sixty_words) 0%float)
                (nth 1 (sentence_scores sixty_words) 0%float) = true.
Proof.
  apply (top_sentences_highest_scores sixty_words 1 0).
  - vm_compute. auto.
  - apply Nat.ltb_lt. vm_compute. reflexivity.
  - vm_compute. intros [H|[H|[]]]; discriminate H.
  - apply Nat.ltb_lt. reflexivity.
Defined.

(** ** The compression ratio at its ends *)

Lemma int_truediv_zero (b : positive) : int_truediv 0 (Zpos b) = 0%float.
Proof. reflexivity. Qed.

Lemma SFdiv_core_self (p : positive) :
  SFdiv_core_binary prec emax (Zpos p) 0 (Zpos p) 0
  = (9007199254740992, -53, loc_Exact)%Z.
Proof.
  unfold SFdiv_core_binary.
  replace (Zdigits2 (Zpos p) + 0 - (Zdigits2 (Zpos p) + 0))%Z with 0%Z by lia.
  change (Z.min (fexp prec emax 0) (0 - 0))%Z with (-53)%Z.
  change (0 - 0 - -53)%Z with 53%Z. cbv iota.
  rewrite Z.shiftl_mul_pow2 by lia.
  pose proof (Z_div_mod (Zpos p * 2 ^ 53) (Zpos p) ltac:(lia)) as D.
  destruct (Z.div_eucl (Zpos p * 2 ^ 53) (Zpos p)) as [q r].
  assert (Hq : q = (2 ^ 53)%Z) by nia.
  assert (Hr : r = 0%Z) by nia.
  subst q r. unfold new_location, new_location_even, new_location_odd.
  destruct (Z.even (Zpos p)); reflexivity.
Qed.

Lemma int_truediv_self (p : positive) : int_truediv (Zpos p) (Zpos p) = 1%float.
Proof.
  unfold int_truediv. cbn [exact_int SFdiv xorb].
  rewrite SFdiv_core_self. vm_compute. reflexivity.
Qed.

Lemma compression_ratio_ends_aux
    (avail : bool) (summarizer : string -> Z -> Z -> result string)
    (spacy : bool) (nlp_ents : string -> list entity)
    (get_text : string -> string)
    (re_findall : string -> bool -> string -> list string) (now : string)
    (history history' : list history_entry) (data : option request)
    (body : success_body) :
  summarize avail summarizer spacy nlp_ents get_text re_findall now history data
  = (Success body, history') ->
  summary_word_count body = original_word_count body ->
  compression_ratio body = 0%float.
Proof.
  intros H. apply summarize_success in H as [rq [_ H]]. cbv zeta in H.
  destruct H as [_ [Hw [_ Hb]]]. rewrite Hb.
  cbn [summary_word_count original_word_count compression_ratio].
  set (n := word_count (clean_text get_text (request_text rq))) in *.
  destruct (Z.of_nat n) as [|p|p] eqn:En; try lia.
  intros E. rewrite E, En, int_truediv_self. vm_compute. reflexivity.
Qed.

Lemma compression_ratio_empty_aux
    (avail : bool) (summarizer : string -> Z -> Z -> result string)
    (spacy : bool) (nlp_ents : string -> list entity)
    (get_text : string -> string)
    (re_findall : string -> bool -> string -> list string) (now : string)
    (history history' : list history_entry) (data : option request)
    (body : success_body) :
  summarize avail summarizer spacy nlp_ents get_text re_findall now history data
  = (Success body, history') ->
  summary_word_count body = 0%nat ->
  compression_ratio body = 100%float.
Proof.
  intros H. apply summarize_success in H as [rq [_ H]]. cbv zeta in H.
  destruct H as [_ [Hw [_ Hb]]]. rewrite Hb.
  cbn [summary_word_count original_word_count compression_ratio].
  set (n := word_count (clean_text get_text (request_text rq))) in *.
  destruct (Z.of_nat n) as [|p|p] eqn:En; try lia.
  intros E. rewrite E. cbn [Z.of_nat]. rewrite int_truediv_zero.
  vm_compute. reflexivity.
Qed.

(** X19.  In a successful answer the compression ratio is exactly 100.0 when
    the summary is empty and exactly 0.0 when the summary has as many words
    as the normalised text. *)
Theorem compression_ratio_ends
    (avail : bool) (summarizer : string -> Z -> Z -> result string)
    (spacy : bool) (nlp_ents : string -> list entity)
    (get_text : string -> string)
    (re_findall : string -> bool -> string -> list string) (now : string)
    (history history' : list history_entry) (data : option request)
    (body : success_body) :
  summarize avail summarizer spacy nlp_ents get_text re_findall now history data
  = (Success body, history') ->
  (summary_word_count body = 0%nat -> compression_ratio body = 100%float) /\
  (summary_word_count body = original_word_count body ->
   compression_ratio body = 0%float).
Proof.
  intros H. split.
  - now apply (compression_ratio_empty_aux _ _ _ _ _ _ _ _ _ _ _ H).
  - now apply (compression_ratio_ends_aux _ _ _ _ _ _ _ _ _ _ _ H).
Qed.


(** An empty summary of 1001 words, and sixty words returned unchanged. *)
Lemma compression_ratio_ends_witness :
  (exists body history',
     summarize true failing_summarizer false no_entities html_get_text py_findall
       "2024-01-01 00:00:00" [] (Some (mk_request (Some (words_text 1001 "w")) None))
     = (Success body, history') /\ compression_ratio body = 100%float) /\
  (exists body history',
     summarize false echo_summarizer false no_entities html_get_text py_findall
       "2024-01-01 00:00:00" [] (Some (mk_request (Some (words_text 60 "w")) None))
     = (Success body, history') /\ compression_ratio body = 0%float).
Proof.
  split.
  - assert (H : exists body history',
               summarize true failing_summarizer false no_entities html_get_text
                 py_findall "2024-01-01 00:00:00" []
                 (Some (mk_request (Some (words_text 1001 "w")) None))
               = (Success body, history') /\ summary_word_count body = 0%nat)
      by (eexists; eexists; split; [vm_compute; reflexivity | reflexivity]).
    destruct H as [body [history' [H Z]]]. exists body, history'.
    split; [exact H|].
    exact (proj1 (compression_ratio_ends _ _ _ _ _ _ _ _ _ _ _ H) Z).
  - assert (H : exists body history',
               summarize false echo_summarizer false no_entities html_get_text
                 py_findall "2024-01-01 00:00:00" []
                 (Some (mk_request (Some (words_text 60 "w")) None))
               = (Success body, history')
               /\ summary_word_count body = original_word_count body)
      by (eexists; eexists; split; [vm_compute; reflexivity | reflexivity]).
    destruct H as [body [history' [H Z]]]. exists body, history'.
    split; [exact H|].
    exact (proj2 (compression_ratio_ends _ _ _ _ _ _ _ _ _ _ _ H) Z).
Defined.


(** ** The bounds sent to the pipeline *)

(** X21.  For a text of 50 to 1000 words the upper bound sent to the pipeline
    never exceeds [max_words]; it is at least [min_words] when [max_words]
    is, and otherwise it is [max_words] itself: the pipeline is then called
    with a [max_length] below its [min_length]. *)
Theorem regular_bounds_order
    (summarizer : string -> Z -> Z -> result string)
    (text : string) (max_words min_words : Z) :
  (50 <= word_count text <= 1000)%nat ->
  exists max_len,
    snd (run (generate_summary true summarizer text max_words min_words))
    = [mk_call text max_len min_words] /\
    (max_len <= max_words)%Z /\
    ((min_words <= max_words)%Z -> (min_words <= max_len)%Z) /\
    ((max_words < min_words)%Z -> max_len = max_words).
Proof.
  intros H. rewrite generate_summary_regular by assumption. cbn [snd].
  eexists. split; [reflexivity|]. unfold regular_max_len. lia.
Qed.

(** Sixty words and a request for at most 10. *)
Lemma regular_bounds_order_witness :
  snd (run (generate_summary true echo_summarizer sixty_words 10 30))
  = [mk_call sixty_words 10 30].
Proof.
  destruct (regular_bounds_order echo_summarizer sixty_words 10 30)
    as [max_len [E [_ [_ L]]]].
  - split; apply Nat.leb_le; vm_compute; reflexivity.
  - rewrite E, L by lia. reflexivity.
Defined.

Lemma make_chunks_count (words : list string) :
  Forall (fun w => is_word w = true) words ->
  List.length (make_chunks words 800) = ((List.length words + 799) / 800)%nat /\
  forall j, (j < List.length (make_chunks words 800))%nat ->
    word_count (nth j (make_chunks words 800) "")
    = Nat.min 800 (List.length words - j * 800).
Proof.
  intros Hw.
  pose proof (make_chunks_split words 800 Hw) as Hs.
  assert (Hl : List.length (make_chunks words 800)
               = List.length (chunk_words words 800))
    by (rewrite <- Hs; now rewrite length_map).
  split.
  - rewrite Hl, chunk_words_length. f_equal. lia.
  - intros j Hj.
    destruct (chunk_words_nth words 800 j ltac:(lia) ltac:(lia)) as [_ [_ Hlen]].
    unfold word_count. rewrite <- Hlen, <- Hs. f_equal.
    change [] with (split ""). now rewrite map_nth.
Qed.

(** X22.  For a text of more than 1000 words whose last chunk holds fewer
    than 67 words, the pipeline is called on that chunk with a [max_length]
    below the [min_length] of 20: [max_length] is three tenths of the chunk's
    words, rounded down. *)
Theorem short_last_chunk_bounds
    (summarizer : string -> Z -> Z -> result string)
    (text : string) (max_words min_words : Z) :
  let n := word_count text in
  (1000 < n)%nat -> (0 < n mod 800 < 67)%nat ->
  exists chunk,
    nth (n / 800)
        (snd (run (generate_summary true summarizer text max_words min_words)))
        (mk_call "" 0 0)
    = mk_call chunk (3 * Z.of_nat (n mod 800) / 10) 20 /\
    word_count chunk = (n mod 800)%nat /\
    (3 * Z.of_nat (n mod 800) / 10 < 20)%Z.
Proof.
  intros n Hn Hr.
  set (chunks := make_chunks (split text) 800).
  destruct (make_chunks_count (split text) (split_words text)) as [Hlen Hcount].
  fold chunks in Hlen, Hcount. fold (word_count text) in Hlen, Hcount.
  fold n in Hlen, Hcount.
  pose proof (Nat.div_mod_eq n 800) as D.
  assert (Hc : List.length chunks = (n / 800 + 1)%nat).
  { rewrite Hlen. symmetry.
    apply (Nat.div_unique _ 800 (n / 800 + 1) (n mod 800 - 1)); lia. }
  assert (Hw : word_count (nth (n / 800) chunks "") = (n mod 800)%nat).
  { rewrite Hcount by lia. lia. }
  exists (nth (n / 800) chunks "").
  split; [|split; [exact Hw | apply Z.div_lt_upper_bound; lia]].
  pose proof (generate_summary_long summarizer text max_words min_words Hn) as E.
  cbv zeta in E. fold chunks in E. rewrite E.
  assert (Hnth : forall rest,
             nth (n / 800) (chunk_calls chunks ++ rest) (mk_call "" 0 0)
             = mk_call (nth (n / 800) chunks "")
                       (3 * Z.of_nat (n mod 800) / 10) 20).
  { intros rest. rewrite app_nth1 by (unfold chunk_calls; rewrite length_map; lia).
    unfold chunk_calls.
    rewrite (nth_indep _ _
               ((fun chunk => mk_call chunk (chunk_max_length chunk) 20) ""))
      by (rewrite length_map; lia).
    rewrite (map_nth (fun chunk => mk_call chunk (chunk_max_length chunk) 20)).
    rewrite chunk_max_length_floor by (rewrite Hw; lia).
    rewrite Hw. f_equal.
    assert (HX : (3 * Z.of_nat (n mod 800) / 10 < 20)%Z)
      by (apply Z.div_lt_upper_bound; lia).
    apply Z.min_r. lia. }
  destruct (max_words <? _)%Z; cbn [snd].
  - apply Hnth.
  - rewrite <- (app_nil_r (chunk_calls chunks)). apply Hnth.
Qed.

(** A text of 1609 words: the third chunk has 9 words. *)
Lemma short_last_chunk_bounds_witness :
  exists chunk,
    nth 2 (snd (run (generate_summary true echo_summarizer (words_text 1609 "w")
                       150 30)))
        (mk_call "" 0 0)
    = mk_call chunk 2 20 /\ word_count chunk = 9%nat.
Proof.
  destruct (short_last_chunk_bounds echo_summarizer (words_text 1609 "w") 150 30)
    as [chunk [E [W _]]].
  - apply Nat.ltb_lt. vm_compute. reflexivity.
  - split; apply Nat.ltb_lt; vm_compute; reflexivity.
  - assert (I : (word_count (words_text 1609 "w") / 800 = 2)%nat)
      by (vm_compute; reflexivity).
    assert (M : (word_count (words_text 1609 "w") mod 800 = 9)%nat)
      by (vm_compute; reflexivity).
    cbv zeta in E, W. rewrite I, M in E. rewrite M in W.
    exists chunk. split; [exact E | exact W].
Defined.
